(** * llmfit desktop UI (llmfit-desktop/ui/app.js): table, filters, sorting, detail panel

    A shallow embedding of the two script variants found in
    [src/llmfit-desktop/ui/app.js] and the properties of the
    ranking / filtering / presentation pipeline.

    Conventions of the embedding.
    - A JavaScript string is a Rocq [string] holding its UTF-8 bytes.  The
      characters the scripts single out ([/], [&], [<], [>], the quote) are
      one byte each and never occur inside a multi-byte sequence, so
      splitting, escaping and substring search read the same on the bytes.
    - A JavaScript number is a binary64 [float]; the arithmetic used by the
      scripts ([-], [/], [Math.min], [Math.max], [toFixed], the conversion
      to text inside a template literal) is written out below.
    - Module-level [let] variables and the parts of the document the
      scripts read or write are the fields of one state record; a handler
      is a function from state to state.
    - What the host supplies and is not text of the scripts (Unicode case
      mapping, locale collation, numeric literals parsing) is a type class
      [Platform]. *)

From Stdlib Require Import ZArith Ascii String List Bool Lia.
From Stdlib Require Import PrimFloat FloatOps SpecFloat DecimalString.
From Stdlib Require Uint63.
From stdpp Require Import base option list gmap strings.

Open Scope string_scope.

(** ** Text *)

Module Text.

(** The double quote character, written by code so that no literal has to
    double it. *)
Definition dq : string := String (ascii_of_nat 34) EmptyString.

(** The line feed that ends each line of a template literal. *)
Definition nl : string := String (ascii_of_nat 10) EmptyString.

(** [concat] of a list of pieces: a template literal is the concatenation of
    its literal chunks and its substitutions. *)
Definition cat (l : list string) : string := fold_right String.append "" l.

(** [Array.prototype.join('')]. *)
Definition join_empty (l : list string) : string := cat l.

(** [Array.prototype.join(sep)]. *)
Fixpoint join (sep : string) (l : list string) : string :=
  match l with
  | [] => ""
  | [x] => x
  | x :: rest => x +:+ sep +:+ join sep rest
  end.

(** [sub] is a prefix of [s]. *)
Fixpoint startsWith (s sub : string) : bool :=
  match sub, s with
  | EmptyString, _ => true
  | String _ _, EmptyString => false
  | String a sub', String b s' => Ascii.eqb a b && startsWith s' sub'
  end.

(** [String.prototype.includes]: [sub] occurs somewhere in [s]. *)
Fixpoint includes (s sub : string) : bool :=
  startsWith s sub ||
  match s with
  | EmptyString => false
  | String _ s' => includes s' sub
  end.

(** [String.prototype.split] with a one-character separator. *)
Fixpoint split (sep : ascii) (s : string) : list string :=
  match s with
  | EmptyString => [EmptyString]
  | String c s' =>
      if Ascii.eqb c sep then EmptyString :: split sep s'
      else match split sep s' with
           | h :: t => String c h :: t
           | [] => [String c EmptyString]
           end
  end.

(** [s.split('/').pop()]: the text after the last slash. *)
Definition split_slash_pop (s : string) : string :=
  List.last (split "/"%char s) EmptyString.

(** JavaScript truthiness of a string: non-empty. *)
Definition truthy (s : string) : bool :=
  match s with EmptyString => false | _ => true end.

(** [escapeHtml]: the text is stored as the [textContent] of a fresh
    element and read back as its [innerHTML].  Serialising a text node
    replaces [&], [<], [>] and the no-break space U+00A0 (bytes 194 160)
    by character references and copies everything else. *)
Fixpoint escapeHtml (str : string) : string :=
  match str with
  | EmptyString => EmptyString
  | String c rest =>
      if Ascii.eqb c "&"%char then "&amp;" +:+ escapeHtml rest
      else if Ascii.eqb c "<"%char then "&lt;" +:+ escapeHtml rest
      else if Ascii.eqb c ">"%char then "&gt;" +:+ escapeHtml rest
      else if Ascii.eqb c (ascii_of_nat 194) then
        match rest with
        | String d rest' =>
            if Ascii.eqb d (ascii_of_nat 160) then "&nbsp;" +:+ escapeHtml rest'
            else String c (escapeHtml rest)
        | EmptyString => String c EmptyString
        end
      else String c (escapeHtml rest)
  end.

(** Decimal digits of a natural number, as a template literal prints an
    array length. *)
Definition of_nat (n : nat) : string := NilZero.string_of_uint (Nat.to_uint n).

(** Decimal digits of a non-negative integer. *)
Definition of_Z (z : Z) : string := NilZero.string_of_uint (N.to_uint (Z.to_N z)).

(** [n] copies of the digit zero. *)
Fixpoint zeros (n : nat) : string :=
  match n with O => "" | S n' => String "0"%char (zeros n') end.

(** The first [n] characters and the rest. *)
Definition take (n : nat) (s : string) : string := String.substring 0 n s.
Definition drop (n : nat) (s : string) : string :=
  String.substring n (String.length s - n) s.

End Text.

(** ** Numbers *)

Module Num.

Import Text.
#[local] Open Scope Z_scope.

(** [Math.min] of two numbers: the smaller one; of two zeros the negative
    one; NaN if either is NaN (the two are then neither ordered nor
    equal). *)
Definition Math_min (a b : float) : float :=
  if (a <? b)%float then a
  else if (b <? a)%float then b
  else if (a =? b)%float then (if is_zero a && get_sign a then a else b)
  else nan.

(** [Math.max] of two numbers: the larger one; of two zeros the positive
    one; NaN if either is NaN. *)
Definition Math_max (a b : float) : float :=
  if (a <? b)%float then b
  else if (b <? a)%float then a
  else if (a =? b)%float then (if is_zero a && get_sign a then b else a)
  else nan.

(** JavaScript truthiness of a number: neither zero nor NaN. *)
Definition truthy (x : float) : bool := negb (is_zero x || is_nan x).

(** Order of two exact values [a * 2^p2 * 10^p10] and [b * 2^q2 * 10^q10]. *)
Definition scaled_cmp (a p2 p10 b q2 q10 : Z) : comparison :=
  let m2 := Z.min p2 q2 in
  let m10 := Z.min p10 q10 in
  (a * 2 ^ (p2 - m2) * 10 ^ (p10 - m10) ?= b * 2 ^ (q2 - m2) * 10 ^ (q10 - m10)).

(** The least [n' >= n] (within [fuel] steps) with [m * 2^e < 10^n']. *)
Fixpoint adjust (fuel : nat) (n m e : Z) : Z :=
  match fuel with
  | O => n
  | S f =>
      match scaled_cmp 1 0 n m e 0 with
      | Gt => n
      | _ => adjust f (n + 1) m e
      end
  end.

(** The [n] with [10^(n-1) <= m * 2^e < 10^n], for a binary64 [m * 2^e > 0]:
    an estimate from the binary logarithm that is at most three short. *)
Definition decimal_exponent (m e : Z) : Z :=
  adjust 4 ((Z.log2 m + e) * 30103 / 100000 - 1) m e.

(** Does the decimal [s * 10^p10] convert back to the binary64 number
    [m * 2^e]?  It does when it lies between the midpoints to the two
    neighbouring numbers, the midpoints themselves counting when [m] is
    even. *)
Definition in_interval (m e s p10 : Z) : bool :=
  let d := if (m =? 2 ^ 52) && (-1074 <? e) then 1 else 2 in
  let even := Z.even m in
  (match scaled_cmp (4 * m - d) (e - 2) 0 s 0 p10 with
   | Lt => true | Eq => even | Gt => false end) &&
  (match scaled_cmp s 0 p10 (4 * m + 2) (e - 2) 0 with
   | Lt => true | Eq => even | Gt => false end).

(** The shortest decimal [s * 10^(n-k)] with [k] digits, [k] as small as
    possible, that converts back to [m * 2^e]; among several the closest,
    then the even one.  Returns [(s, n)]. *)
Fixpoint shortest (fuel : nat) (k m e n0 : Z) : Z * Z :=
  let num := m * 2 ^ (Z.max e 0) * 10 ^ (Z.max (k - n0) 0) in
  let den := 2 ^ (Z.max (- e) 0) * 10 ^ (Z.max (n0 - k) 0) in
  let s_lo := num / den in
  let r := num - s_lo * den in
  let s_hi := s_lo + 1 in
  let ok_lo := in_interval m e s_lo (n0 - k) in
  let ok_hi := in_interval m e s_hi (n0 - k) in
  let pick_hi :=
    ok_hi && (negb ok_lo || (den <? 2 * r) || ((den =? 2 * r) && Z.even s_hi)) in
  if ok_lo || ok_hi then
    let s := if pick_hi then s_hi else s_lo in
    if s =? 10 ^ k then (10 ^ (k - 1), n0 + 1) else (s, n0)
  else
    match fuel with
    | O => (s_lo, n0)
    | S f => shortest f (k + 1) m e n0
    end.

(** Number::toString, steps 6 to 10: lay out the digits of [s] for the
    decimal exponent [n]. *)
Definition layout (s n : Z) : string :=
  let digits := of_Z s in
  let k := Z.of_nat (String.length digits) in
  if (k <=? n) && (n <=? 21) then digits +:+ zeros (Z.to_nat (n - k))
  else if (0 <? n) && (n <=? 21) then
    take (Z.to_nat n) digits +:+ "." +:+ drop (Z.to_nat n) digits
  else if (-6 <? n) && (n <=? 0) then "0." +:+ zeros (Z.to_nat (- n)) +:+ digits
  else
    let e := n - 1 in
    let sign := if 0 <=? e then "+" else "-" in
    if k =? 1 then digits +:+ "e" +:+ sign +:+ of_Z (Z.abs e)
    else take 1 digits +:+ "." +:+ drop 1 digits +:+ "e" +:+ sign +:+ of_Z (Z.abs e).

(** Number::toString in radix 10: how a number is printed inside a
    template literal. *)
Definition Number_toString (x : float) : string :=
  match Prim2SF x with
  | S754_nan => "NaN"
  | S754_zero _ => "0"
  | S754_infinity sgn => if sgn then "-Infinity" else "Infinity"
  | S754_finite sgn m e =>
      let '(s, n) := shortest 17 1 (Zpos m) e (decimal_exponent (Zpos m) e) in
      (if sgn then "-" else "") +:+ layout s n
  end.

(** Number.prototype.toFixed, step 10: the integer [n] printed with [f]
    digits after the point. *)
Definition fixed_digits (n : Z) (f : nat) : string :=
  let m := of_Z n in
  match f with
  | O => m
  | S _ =>
      let k := String.length m in
      let m' := if (k <=? f)%nat then zeros (f + 1 - k) +:+ m else m in
      let k' := if (k <=? f)%nat then (f + 1)%nat else k in
      take (k' - f) m' +:+ "." +:+ drop (k' - f) m'
  end.

(** [Number.prototype.toFixed(f)] for [0 <= f <= 100] (the scripts pass 0
    and 1).  A finite magnitude below [10^21] is rounded to the nearest
    multiple of [10^-f], halves upwards in magnitude. *)
Definition toFixed (x : float) (f : nat) : string :=
  match Prim2SF x with
  | S754_nan | S754_infinity _ => Number_toString x
  | S754_zero _ => fixed_digits 0 f
  | S754_finite sgn m e =>
      let sign := if sgn then "-" else "" in
      match scaled_cmp 1 0 21 (Zpos m) e 0 with
      | Gt =>
          let num := Zpos m * 2 ^ (Z.max e 0) * 10 ^ (Z.of_nat f) in
          let den := 2 ^ (Z.max (- e) 0) in
          sign +:+ fixed_digits ((2 * num + den) / (2 * den)) f
      | _ => sign +:+ Number_toString (abs x)
      end
  end.

(** A boolean used as a number: [true] is 1, [false] is 0. *)
Definition of_bool (b : bool) : float := if b then 1%float else 0%float.

End Num.

(** ** What the host supplies *)

(** The three library functions whose result depends on Unicode tables,
    on the locale or on the grammar of numeric literals.  The scripts are
    verified for every such host. *)
Class Platform := {
  (** [String.prototype.toLowerCase] *)
  toLowerCase : string -> string;
  (** [a.localeCompare(b)]: negative, zero or positive *)
  localeCompare : string -> string -> float;
  (** ToNumber applied to a string *)
  StringToNumber : string -> float;
}.

(** ** Data model (first variant) *)

(** One model-fit record, as [get_model_fits] delivers it. *)
Record ModelFit := {
  name : string;
  provider : string;
  params : string;
  score : float;
  fit_level : string;
  fit_emoji : string;
  estimated_tps : float;
  best_quant : string;
  run_mode : string;
  utilization_pct : float;
  context_length : float;
  installed : bool;
  memory_required_gb : float;
  memory_available_gb : float;
  score_memory : float;
  score_speed : float;
  score_quality : float;
  score_context : float;
  category : string;
  use_case : string;
  notes : list string;
}.

(** The system-info record, as [get_system_info] delivers it; [vram_gb]
    may be absent. *)
Record SystemInfo := {
  cpu : string;
  cores : float;
  ram_gb : float;
  gpu : string;
  vram_gb : option float;
  unified_memory : bool;
  ollama_available : bool;
  ollama_installed_count : float;
}.

(** The outcome of awaiting a backend command: the promise resolves with a
    value or rejects with an error. *)
Inductive Outcome (A : Type) : Type :=
| Resolved (v : A)
| Rejected (e : string).
Arguments Resolved {A} v.
Arguments Rejected {A} e.

(** A property read [m[key]] on a record of fixed shape: the property is a
    string, a number, a boolean, the [notes] array, or missing. *)
Inductive Property : Type :=
| PString (get : ModelFit -> string)
| PNumber (get : ModelFit -> float)
| PBoolean (get : ModelFit -> bool)
| PArray (get : ModelFit -> list string)
| PMissing.

Definition property (key : string) : Property :=
  if String.eqb key "name" then PString name
  else if String.eqb key "provider" then PString provider
  else if String.eqb key "params" then PString params
  else if String.eqb key "score" then PNumber score
  else if String.eqb key "fit_level" then PString fit_level
  else if String.eqb key "fit_emoji" then PString fit_emoji
  else if String.eqb key "estimated_tps" then PNumber estimated_tps
  else if String.eqb key "best_quant" then PString best_quant
  else if String.eqb key "run_mode" then PString run_mode
  else if String.eqb key "utilization_pct" then PNumber utilization_pct
  else if String.eqb key "context_length" then PNumber context_length
  else if String.eqb key "installed" then PBoolean installed
  else if String.eqb key "memory_required_gb" then PNumber memory_required_gb
  else if String.eqb key "memory_available_gb" then PNumber memory_available_gb
  else if String.eqb key "score_memory" then PNumber score_memory
  else if String.eqb key "score_speed" then PNumber score_speed
  else if String.eqb key "score_quality" then PNumber score_quality
  else if String.eqb key "score_context" then PNumber score_context
  else if String.eqb key "category" then PString category
  else if String.eqb key "use_case" then PString use_case
  else if String.eqb key "notes" then PArray notes
  else PMissing.

(** ** The page: script variables and the document *)

(** An element's [classList]: an ordered set of tokens. *)
Module ClassList.

Definition contains (cl : list string) (t : string) : bool :=
  existsb (String.eqb t) cl.

Definition add1 (cl : list string) (t : string) : list string :=
  if contains cl t then cl else cl ++ [t].

(** [classList.add(t1, t2, ...)] *)
Definition add (ts : list string) (cl : list string) : list string :=
  fold_left add1 ts cl.

(** [classList.remove(t1, t2, ...)] *)
Definition remove (ts : list string) (cl : list string) : list string :=
  List.filter (fun t => negb (contains ts t)) cl.

End ClassList.

(** The script's module variables (lines 5 to 8). *)
Record Vars := {
  allModels : list ModelFit;
  sortKey : string;
  sortAsc : bool;
  (** [null] or a record name *)
  selectedModel : option string;
}.

(** The filter controls: [#search], [#filter-fit], [#filter-category],
    [#filter-installed]. *)
Record Controls := {
  search_value : string;
  filter_fit_value : string;
  filter_category_value : string;
  filter_installed_checked : bool;
}.

(** The system panel: the text of [#sys-cpu], [#sys-ram], [#sys-gpu],
    [#sys-vram], [#sys-ollama] and the class of the last. *)
Record SystemPanel := {
  sys_cpu : string;
  sys_ram : string;
  sys_gpu : string;
  sys_vram : string;
  sys_ollama : string;
  sys_ollama_className : string;
}.

(** The table: the text of [#model-count], the markup last assigned to
    the [innerHTML] of [#model-tbody], and the class lists of the [th]
    elements that carry [data-sort], by that key. *)
Record TableView := {
  model_count : string;
  model_tbody : string;
  th_classes : gmap string (list string);
}.

(** The detail panel: the class list of [#detail-panel] and the markup
    last assigned to the [innerHTML] of [#detail-content]. *)
Record DetailView := {
  detail_panel : list string;
  detail_content : string;
}.

(** The state of the page: the script's variables, the parts of the
    document it reads or assigns, and the lines written by
    [console.error]. *)
Record Page := {
  vars : Vars;
  controls : Controls;
  system : SystemPanel;
  table : TableView;
  detail : DetailView;
  console : list string;
}.

Definition set_vars (v : Vars) (p : Page) : Page :=
  {| vars := v; controls := controls p; system := system p;
     table := table p; detail := detail p; console := console p |}.

Definition set_controls (c : Controls) (p : Page) : Page :=
  {| vars := vars p; controls := c; system := system p;
     table := table p; detail := detail p; console := console p |}.

Definition set_system (s : SystemPanel) (p : Page) : Page :=
  {| vars := vars p; controls := controls p; system := s;
     table := table p; detail := detail p; console := console p |}.

Definition set_table (t : TableView) (p : Page) : Page :=
  {| vars := vars p; controls := controls p; system := system p;
     table := t; detail := detail p; console := console p |}.

Definition set_detail (d : DetailView) (p : Page) : Page :=
  {| vars := vars p; controls := controls p; system := system p;
     table := table p; detail := d; console := console p |}.

(** [console.error(msg, e)] *)
Definition console_error (msg e : string) (p : Page) : Page :=
  {| vars := vars p; controls := controls p; system := system p;
     table := table p; detail := detail p;
     console := console p ++ [msg +:+ " " +:+ e] |}.

(** Assignments to single variables. *)
Definition set_allModels (l : list ModelFit) (p : Page) : Page :=
  set_vars {| allModels := l; sortKey := sortKey (vars p);
              sortAsc := sortAsc (vars p);
              selectedModel := selectedModel (vars p) |} p.

Definition set_selectedModel (s : option string) (p : Page) : Page :=
  set_vars {| allModels := allModels (vars p); sortKey := sortKey (vars p);
              sortAsc := sortAsc (vars p); selectedModel := s |} p.

Definition set_sort (key : string) (asc : bool) (p : Page) : Page :=
  set_vars {| allModels := allModels (vars p); sortKey := key;
              sortAsc := asc; selectedModel := selectedModel (vars p) |} p.

(** The page when the script has been loaded: the variables hold their
    initialisers, the document is as the HTML file made it. *)
Definition initial (c : Controls) (s : SystemPanel) (t : TableView)
    (d : DetailView) : Page :=
  {| vars := {| allModels := []; sortKey := "score"; sortAsc := false;
                selectedModel := None |};
     controls := c; system := s; table := t; detail := d; console := [] |}.

(** ** The script (first variant) *)

Section Script.

Context `{Platform}.

Import Text Num.

(** *** Filtering (lines 50 to 64) *)

(** The callback of [allModels.filter]: the four tests in the order of the
    source, each returning [false] when the record fails. *)
Definition passesFilters (search fitFilter catFilter : string)
    (installedOnly : bool) (m : ModelFit) : bool :=
  if Text.truthy search
     && negb (includes (toLowerCase (name m)) search)
     && negb (includes (toLowerCase (provider m)) search) then false
  else if negb (String.eqb fitFilter "all")
          && negb (String.eqb (fit_level m) fitFilter) then false
  else if negb (String.eqb catFilter "all")
          && negb (String.eqb (category m) catFilter) then false
  else if installedOnly && negb (installed m) then false
  else true.

Definition getFilteredModels (p : Page) : list ModelFit :=
  let search := toLowerCase (search_value (controls p)) in
  let fitFilter := filter_fit_value (controls p) in
  let catFilter := filter_category_value (controls p) in
  let installedOnly := filter_installed_checked (controls p) in
  List.filter (passesFilters search fitFilter catFilter installedOnly)
    (allModels (vars p)).

(** *** Sorting (lines 67 to 77) *)

(** ToNumber of the [notes] array: the elements joined by commas, read as
    a numeric literal. *)
Definition ToNumber_array (l : list string) : float :=
  StringToNumber (join "," l).

(** The comparator passed to [sort].  [va] and [vb] are the same property
    of two records of one shape, so the [typeof] test on [va] decides for
    both. *)
Definition comparator (key : string) (asc : bool) (a b : ModelFit) : float :=
  match property key with
  | PString get =>
      let va := toLowerCase (get a) in
      let vb := toLowerCase (get b) in
      if asc then localeCompare va vb else localeCompare vb va
  | PBoolean get =>
      let va := of_bool (get a) in
      let vb := of_bool (get b) in
      if asc then (va - vb)%float else (vb - va)%float
  | PNumber get =>
      let va := get a in
      let vb := get b in
      if asc then (va - vb)%float else (vb - va)%float
  | PArray get =>
      let va := ToNumber_array (get a) in
      let vb := ToNumber_array (get b) in
      if asc then (va - vb)%float else (vb - va)%float
  | PMissing =>
      if asc then (nan - nan)%float else (nan - nan)%float
  end.

(** [Array.prototype.sort(cmp)].  The sort is stable and places [x] after
    [y] only when [cmp x y > 0] (a NaN result counts as zero); written as
    an insertion sort. *)
Fixpoint sort_insert {A} (cmp : A -> A -> float) (x : A) (l : list A) : list A :=
  match l with
  | [] => [x]
  | y :: l' =>
      if (0 <? cmp x y)%float then y :: sort_insert cmp x l'
      else x :: y :: l'
  end.

Definition Array_sort {A} (cmp : A -> A -> float) (l : list A) : list A :=
  fold_right (sort_insert cmp) [] l.

(** [sortModels]: a copy of [models], sorted.  (The copy made by the
    spread matters only where arrays are shared; see [Store].) *)
Definition sortModels (p : Page) (models : list ModelFit) : list ModelFit :=
  Array_sort (comparator (sortKey (vars p)) (sortAsc (vars p))) models.

(** *** Rendering (lines 80 to 107) *)

(** [selectedModel === m.name] *)
Definition is_selected (sel : option string) (m : ModelFit) : bool :=
  match sel with
  | Some s => String.eqb s (name m)
  | None => false
  end.

(** The template literal of one table row (lines 85 to 101). *)
Definition rowMarkup (sel : option string) (m : ModelFit) : string :=
  cat [ nl;
        "    <tr class="; dq; "model-row "; (if is_selected sel m then "selected" else ""); dq; " data-name="; dq; name m; dq; ">"; nl;
        "      <td>"; nl;
        "        <div class="; dq; "model-name"; dq; ">"; escapeHtml (split_slash_pop (name m)); "</div>"; nl;
        "        <div class="; dq; "model-provider"; dq; ">"; escapeHtml (provider m); "</div>"; nl;
        "      </td>"; nl;
        "      <td>"; params m; "</td>"; nl;
        "      <td><strong>"; toFixed (score m) 0; "</strong></td>"; nl;
        "      <td><span class="; dq; "fit-badge fit-"; fit_level m; dq; ">"; fit_emoji m; " "; fit_level m; "</span></td>"; nl;
        "      <td>"; toFixed (estimated_tps m) 1; "</td>"; nl;
        "      <td>"; best_quant m; "</td>"; nl;
        "      <td>"; run_mode m; "</td>"; nl;
        "      <td>"; toFixed (utilization_pct m) 0; "%</td>"; nl;
        "      <td>"; toFixed (context_length m / 1000)%float 0; "k</td>"; nl;
        "      <td class="; dq; (if installed m then "installed-yes" else "installed-no"); dq; ">"; (if installed m then "✓" else "—"); "</td>"; nl;
        "    </tr>"; nl;
        "  " ].

(** The text assigned to [#model-count] (line 82). *)
Definition countText (visible total : nat) : string :=
  cat [ of_nat visible; " of "; of_nat total; " models" ].

Definition renderTable (p : Page) : Page :=
  let filtered := sortModels p (getFilteredModels p) in
  set_table
    {| model_count := countText (length filtered) (length (allModels (vars p)));
       model_tbody :=
         join_empty (List.map (rowMarkup (selectedModel (vars p))) filtered);
       th_classes := th_classes (table p) |} p.

(** *** The detail panel (lines 109 to 226) *)

Definition scoreBar (label : string) (value : float) (cls : string) : string :=
  let pct := Math_max 0 (Math_min 100 ((value / 30) * 100)%float) in
  cat [ nl;
        "    <div class="; dq; "score-bar-container"; dq; ">"; nl;
        "      <div class="; dq; "score-bar-label"; dq; ">"; nl;
        "        <span>"; label; "</span>"; nl;
        "        <span>"; toFixed value 1; "</span>"; nl;
        "      </div>"; nl;
        "      <div class="; dq; "score-bar"; dq; ">"; nl;
        "        <div class="; dq; "score-bar-fill "; cls; dq; " style="; dq; "width: "; Number_toString pct; "%"; dq; "></div>"; nl;
        "      </div>"; nl;
        "    </div>"; nl;
        "  " ].

(** The callback of [model.notes.map] (line 194). *)
Definition noteDiv (n : string) : string :=
  cat [ "<div class="; dq; "note"; dq; ">"; escapeHtml n; "</div>" ].

(** The conditional notes section (lines 191 to 196). *)
Definition notesSection (model : ModelFit) : string :=
  match notes model with
  | [] => ""
  | _ :: _ =>
  cat [ nl;
        "      <div class="; dq; "detail-section"; dq; ">"; nl;
        "        <h3>Notes</h3>"; nl;
        "        "; join_empty (List.map noteDiv (notes model)); nl;
        "      </div>"; nl;
        "    " ]
  end.

(** The template literal assigned to [#detail-content] (lines 117 to 206). *)
Definition detailMarkup (model : ModelFit) : string :=
  cat [ nl;
        "    <div class="; dq; "detail-header"; dq; ">"; nl;
        "      <h2>"; escapeHtml (split_slash_pop (name model)); "</h2>"; nl;
        "      <div class="; dq; "provider"; dq; ">"; escapeHtml (provider model); " · "; escapeHtml (name model); "</div>"; nl;
        "    </div>"; nl;
        nl;
        "    <div class="; dq; "detail-section"; dq; ">"; nl;
        "      <h3>Fit Assessment</h3>"; nl;
        "      <div class="; dq; "detail-grid"; dq; ">"; nl;
        "        <div class="; dq; "detail-item"; dq; ">"; nl;
        "          <span class="; dq; "label"; dq; ">Fit Level</span>"; nl;
        "          <span class="; dq; "value"; dq; "><span class="; dq; "fit-badge fit-"; fit_level model; dq; ">"; fit_emoji model; " "; fit_level model; "</span></span>"; nl;
        "        </div>"; nl;
        "        <div class="; dq; "detail-item"; dq; ">"; nl;
        "          <span class="; dq; "label"; dq; ">Overall Score</span>"; nl;
        "          <span class="; dq; "value"; dq; ">"; toFixed (score model) 1; "</span>"; nl;
        "        </div>"; nl;
        "        <div class="; dq; "detail-item"; dq; ">"; nl;
        "          <span class="; dq; "label"; dq; ">Est. Speed</span>"; nl;
        "          <span class="; dq; "value"; dq; ">"; toFixed (estimated_tps model) 1; " tok/s</span>"; nl;
        "        </div>"; nl;
        "        <div class="; dq; "detail-item"; dq; ">"; nl;
        "          <span class="; dq; "label"; dq; ">Run Mode</span>"; nl;
        "          <span class="; dq; "value"; dq; ">"; run_mode model; "</span>"; nl;
        "        </div>"; nl;
        "        <div class="; dq; "detail-item"; dq; ">"; nl;
        "          <span class="; dq; "label"; dq; ">Quantization</span>"; nl;
        "          <span class="; dq; "value"; dq; ">"; best_quant model; "</span>"; nl;
        "        </div>"; nl;
        "        <div class="; dq; "detail-item"; dq; ">"; nl;
        "          <span class="; dq; "label"; dq; ">Context</span>"; nl;
        "          <span class="; dq; "value"; dq; ">"; toFixed (context_length model / 1000)%float 0; "k</span>"; nl;
        "        </div>"; nl;
        "      </div>"; nl;
        "    </div>"; nl;
        nl;
        "    <div class="; dq; "detail-section"; dq; ">"; nl;
        "      <h3>Memory</h3>"; nl;
        "      <div class="; dq; "detail-grid"; dq; ">"; nl;
        "        <div class="; dq; "detail-item"; dq; ">"; nl;
        "          <span class="; dq; "label"; dq; ">Required</span>"; nl;
        "          <span class="; dq; "value"; dq; ">"; toFixed (memory_required_gb model) 1; " GB</span>"; nl;
        "        </div>"; nl;
        "        <div class="; dq; "detail-item"; dq; ">"; nl;
        "          <span class="; dq; "label"; dq; ">Available</span>"; nl;
        "          <span class="; dq; "value"; dq; ">"; toFixed (memory_available_gb model) 1; " GB</span>"; nl;
        "        </div>"; nl;
        "      </div>"; nl;
        "      <div style="; dq; "margin-top: 8px"; dq; ">"; nl;
        "        <div class="; dq; "score-bar"; dq; ">"; nl;
        "          <div class="; dq; "score-bar-fill memory"; dq; " style="; dq; "width: "; Number_toString (Math_min (utilization_pct model) 100); "%"; dq; "></div>"; nl;
        "        </div>"; nl;
        "        <div class="; dq; "score-bar-label"; dq; ">"; nl;
        "          <span>Memory utilization</span>"; nl;
        "          <span>"; toFixed (utilization_pct model) 1; "%</span>"; nl;
        "        </div>"; nl;
        "      </div>"; nl;
        "    </div>"; nl;
        nl;
        "    <div class="; dq; "detail-section"; dq; ">"; nl;
        "      <h3>Score Breakdown</h3>"; nl;
        "      "; scoreBar "Memory" (score_memory model) "memory"; nl;
        "      "; scoreBar "Speed" (score_speed model) "speed"; nl;
        "      "; scoreBar "Quality" (score_quality model) "quality"; nl;
        "      "; scoreBar "Context" (score_context model) "context"; nl;
        "    </div>"; nl;
        nl;
        "    <div class="; dq; "detail-section"; dq; ">"; nl;
        "      <h3>Category</h3>"; nl;
        "      <div class="; dq; "detail-item"; dq; ">"; nl;
        "        <span class="; dq; "value"; dq; ">"; escapeHtml (category model); " — "; escapeHtml (use_case model); "</span>"; nl;
        "      </div>"; nl;
        "    </div>"; nl;
        nl;
        "    "; notesSection model; nl;
        nl;
        "    <div class="; dq; "detail-section"; dq; ">"; nl;
        "      <h3>Status</h3>"; nl;
        "      <div class="; dq; "detail-item"; dq; ">"; nl;
        "        <span class="; dq; "value "; (if installed model then "installed-yes" else "installed-no"); dq; ">"; nl;
        "          "; (if installed model then "✓ Installed" else "✗ Not installed"); nl;
        "        </span>"; nl;
        "      </div>"; nl;
        "    </div>"; nl;
        "  " ].

Definition showDetail (n : string) (p : Page) : Page :=
  let p1 := set_selectedModel (Some n) p in
  match List.find (fun m => String.eqb (name m) n) (allModels (vars p1)) with
  | None => p1
  | Some model =>
      let p2 :=
        set_detail
          {| detail_panel :=
               ClassList.add ["visible"]
                 (ClassList.remove ["hidden"] (detail_panel (detail p1)));
             detail_content := detailMarkup model |} p1 in
      renderTable p2
  end.
(** *** Loading (lines 17 to 47) *)

(** [loadSystemInfo] once the awaited [get_system_info] has settled. *)
Definition loadSystemInfo (r : Outcome SystemInfo) (p : Page) : Page :=
  match r with
  | Resolved info =>
      set_system
        {| sys_cpu :=
             cat [ cpu info; " ("; Number_toString (cores info); " cores)" ];
           sys_ram := cat [ toFixed (ram_gb info) 1; " GB" ];
           sys_gpu := gpu info;
           sys_vram :=
             match vram_gb info with
             | Some v =>
                 if Num.truthy v then
                   cat [ toFixed v 1; " GB";
                         if unified_memory info then " (unified)" else "" ]
                 else "N/A"
             | None => "N/A"
             end;
           sys_ollama :=
             if ollama_available info then
               cat [ "✓ ("; Number_toString (ollama_installed_count info);
                     " installed)" ]
             else "✗ Not running";
           sys_ollama_className :=
             if ollama_available info then "sys-value available"
             else "sys-value unavailable" |} p
  | Rejected e => console_error "Failed to load system info:" e p
  end.

(** [loadModels] once the awaited [get_model_fits] has settled. *)
Definition loadModels (r : Outcome (list ModelFit)) (p : Page) : Page :=
  match r with
  | Resolved models => renderTable (set_allModels models p)
  | Rejected e => console_error "Failed to load models:" e p
  end.

(** *** Event listeners (lines 229 to 271) *)

(** The handler of [#btn-refresh]: both loads, one after the other. *)
Definition refresh (info : Outcome SystemInfo) (models : Outcome (list ModelFit))
    (p : Page) : Page :=
  loadModels models (loadSystemInfo info p).

(** The handler of [#detail-close]. *)
Definition closeDetail (p : Page) : Page :=
  let p1 := set_selectedModel None p in
  let p2 :=
    set_detail
      {| detail_panel :=
           ClassList.add ["hidden"]
             (ClassList.remove ["visible"] (detail_panel (detail p1)));
         detail_content := detail_content (detail p1) |} p1 in
  renderTable p2.

(** The truthiness of [selectedModel]: a non-empty name. *)
Definition selection_truthy (sel : option string) : bool :=
  match sel with
  | Some s => Text.truthy s
  | None => false
  end.

(** The [keydown] handler of the document. *)
Definition keydown (key : string) (p : Page) : Page :=
  if String.eqb key "Escape" && selection_truthy (selectedModel (vars p)) then
    let p1 := set_selectedModel None p in
    let p2 :=
      set_detail
        {| detail_panel := ClassList.remove ["visible"] (detail_panel (detail p1));
           detail_content := detail_content (detail p1) |} p1 in
    renderTable p2
  else p.

(** The click handler of the column header whose [data-sort] is [key]. *)
Definition headerClick (key : string) (p : Page) : Page :=
  let p1 :=
    if String.eqb (sortKey (vars p)) key
    then set_sort (sortKey (vars p)) (negb (sortAsc (vars p))) p
    else set_sort key false p in
  let cleared := ClassList.remove ["sorted"; "asc"; "desc"] <$> th_classes (table p1) in
  let marked :=
    ClassList.add ["sorted"; if sortAsc (vars p1) then "asc" else "desc"]
      (default [] (cleared !! key)) in
  let p2 :=
    set_table {| model_count := model_count (table p1);
                 model_tbody := model_tbody (table p1);
                 th_classes := <[key := marked]> cleared |} p1 in
  renderTable p2.

(** What can happen to the page.  An input event carries the new value of
    its control; a row click carries the [data-name] of the row; the two
    backend events are the settling of the awaited commands. *)
Inductive Event : Type :=
| SearchInput (text : string)
| FitFilterChange (value : string)
| CategoryFilterChange (value : string)
| InstalledChange (checked : bool)
| RowClick (rowName : string)
| CloseClick
| KeyDown (key : string)
| HeaderClick (key : string)
| SystemInfoSettled (r : Outcome SystemInfo)
| ModelFitsSettled (r : Outcome (list ModelFit)).

Definition set_search (text : string) (p : Page) : Page :=
  set_controls {| search_value := text;
                  filter_fit_value := filter_fit_value (controls p);
                  filter_category_value := filter_category_value (controls p);
                  filter_installed_checked := filter_installed_checked (controls p) |} p.

Definition set_filter_fit (v : string) (p : Page) : Page :=
  set_controls {| search_value := search_value (controls p);
                  filter_fit_value := v;
                  filter_category_value := filter_category_value (controls p);
                  filter_installed_checked := filter_installed_checked (controls p) |} p.

Definition set_filter_category (v : string) (p : Page) : Page :=
  set_controls {| search_value := search_value (controls p);
                  filter_fit_value := filter_fit_value (controls p);
                  filter_category_value := v;
                  filter_installed_checked := filter_installed_checked (controls p) |} p.

Definition set_filter_installed (b : bool) (p : Page) : Page :=
  set_controls {| search_value := search_value (controls p);
                  filter_fit_value := filter_fit_value (controls p);
                  filter_category_value := filter_category_value (controls p);
                  filter_installed_checked := b |} p.

(** One event handled to completion. *)
Definition handle (e : Event) (p : Page) : Page :=
  match e with
  | SearchInput text => renderTable (set_search text p)
  | FitFilterChange v => renderTable (set_filter_fit v p)
  | CategoryFilterChange v => renderTable (set_filter_category v p)
  | InstalledChange b => renderTable (set_filter_installed b p)
  | RowClick n => showDetail n p
  | CloseClick => closeDetail p
  | KeyDown key => keydown key p
  | HeaderClick key => headerClick key p
  | SystemInfoSettled r => loadSystemInfo r p
  | ModelFitsSettled r => loadModels r p
  end.

(** A run of events, oldest first. *)
Definition run (es : list Event) (p : Page) : Page :=
  fold_left (fun q e => handle e q) es p.

End Script.

(** ** A host for ASCII data *)

(** A concrete [Platform] on which the model runs: letters A to Z are
    lowered and every other byte is kept; strings are ordered by their
    bytes; the empty text and unsigned integers of at most 15 digits are
    read as numbers, every other text as NaN.  It agrees with a browser on
    lower-case ASCII words, which is what the examples use. *)
Module AsciiHost.

Definition lower (c : ascii) : ascii :=
  let n := nat_of_ascii c in
  if (65 <=? n)%nat && (n <=? 90)%nat then ascii_of_nat (n + 32) else c.

Fixpoint lowerString (s : string) : string :=
  match s with
  | EmptyString => EmptyString
  | String c rest => String (lower c) (lowerString rest)
  end.

Definition compareBytes (a b : string) : float :=
  match String.compare a b with
  | Lt => (-1)%float
  | Eq => 0%float
  | Gt => 1%float
  end.

Fixpoint digitsValue (acc : Z) (s : string) : option Z :=
  match s with
  | EmptyString => Some acc
  | String c rest =>
      let n := Z.of_nat (nat_of_ascii c) in
      if (48 <=? n)%Z && (n <=? 57)%Z then digitsValue (10 * acc + (n - 48)) rest
      else None
  end.

Definition readNumber (s : string) : float :=
  if (String.length s <=? 15)%nat then
    match digitsValue 0 s with
    | Some z => PrimFloat.of_uint63 (Uint63.of_Z z)
    | None => nan
    end
  else nan.

#[export] Instance host : Platform :=
  {| toLowerCase := lowerString;
     localeCompare := compareBytes;
     StringToNumber := readNumber |}.

End AsciiHost.

(** ** The second variant of the script (lines 278 to 368) *)

Module Variant2.

Import Text Num.

(** A fit as the second variant reads it. *)
Record Fit := {
  name : string;
  params_b : float;
  quant : string;
  fit_level : string;
  run_mode : string;
  score : float;
  estimated_tps : float;
  use_case : string;
}.

(** The variable [allFits], the controls [#search] and [#fit-filter], the
    markup last assigned to the [innerHTML] of [#models-body], and the
    console.  ([loadSpecs] writes other elements only and is not
    modelled.) *)
Record Page := {
  allFits : list Fit;
  search_value : string;
  fit_filter_value : string;
  models_body : string;
  console : list string;
}.

Definition fitClass (level : string) : string :=
  if String.eqb level "Perfect" then "fit-perfect"
  else if String.eqb level "Good" then "fit-good"
  else if String.eqb level "Marginal" then "fit-marginal"
  else "fit-tight".

Definition modeClass (mode : string) : string :=
  if String.eqb mode "GPU" then "mode-gpu"
  else if String.eqb mode "MoE Offload" then "mode-moe"
  else if String.eqb mode "CPU Offload" then "mode-cpuoffload"
  else "mode-cpuonly".

(** The placeholder rows (lines 322 and 360). *)
Definition placeholderRow (text : string) : string :=
  cat [ "<tr><td colspan="; dq; "8"; dq; " class="; dq; "loading"; dq; ">";
        text; "</td></tr>" ].

Definition noModelsRow : string := placeholderRow "No models found".
Definition errorRow : string := placeholderRow "Error loading models".

(** The template literal of one row (lines 325 to 336). *)
Definition rowMarkup (f : Fit) : string :=
  cat [ nl;
        "    <tr>"; nl;
        "      <td><strong>"; name f; "</strong></td>"; nl;
        "      <td>"; toFixed (params_b f) 1; "B</td>"; nl;
        "      <td>"; quant f; "</td>"; nl;
        "      <td class="; dq; fitClass (fit_level f); dq; ">"; fit_level f; "</td>"; nl;
        "      <td class="; dq; modeClass (run_mode f); dq; ">"; run_mode f; "</td>"; nl;
        "      <td>"; toFixed (score f) 0; "</td>"; nl;
        "      <td>"; toFixed (estimated_tps f) 1; "</td>"; nl;
        "      <td>"; use_case f; "</td>"; nl;
        "    </tr>"; nl;
        "  " ].

Definition set_body (html : string) (p : Page) : Page :=
  {| allFits := allFits p; search_value := search_value p;
     fit_filter_value := fit_filter_value p; models_body := html;
     console := console p |}.

Definition renderModels (fits : list Fit) (p : Page) : Page :=
  match fits with
  | [] => set_body noModelsRow p
  | _ :: _ => set_body (join_empty (List.map rowMarkup fits)) p
  end.

Section Script.

Context `{Platform}.

Definition applyFilters (p : Page) : Page :=
  let search := toLowerCase (search_value p) in
  let fitFilter := fit_filter_value p in
  let filtered := allFits p in
  let filtered :=
    if Text.truthy search
    then List.filter (fun f => includes (toLowerCase (name f)) search) filtered
    else filtered in
  let filtered :=
    if negb (String.eqb fitFilter "all")
    then List.filter (fun f => String.eqb (fit_level f) fitFilter) filtered
    else filtered in
  renderModels filtered p.

(** [loadModels] once the awaited [get_model_fits] has settled; the
    command resolves with [null] ([None]) where the backend is absent. *)
Definition loadModels (r : Outcome (option (list Fit))) (p : Page) : Page :=
  match r with
  | Resolved v =>
      applyFilters
        {| allFits := default [] v; search_value := search_value p;
           fit_filter_value := fit_filter_value p;
           models_body := models_body p; console := console p |}
  | Rejected e =>
      set_body errorRow
        {| allFits := allFits p; search_value := search_value p;
           fit_filter_value := fit_filter_value p;
           models_body := models_body p;
           console := console p ++ ["Failed to load models: " +:+ e] |}
  end.

End Script.

End Variant2.

(** ** Arrays as shared objects *)

(** The filter and sort pipeline once more, with arrays and records as
    objects in a store, so that it shows which array each step reads,
    allocates or overwrites: [filter] and the spread [[...models]] allocate
    a new array, [sort] overwrites the array it is called on. *)
Module Store.

Definition loc := positive.

(** Records by reference, and arrays of references. *)
Record Heap := {
  objects : gmap loc ModelFit;
  arrays : gmap loc (list loc);
}.

(** A new array holding [v], at a location not in use. *)
Definition alloc (v : list loc) (h : Heap) : loc * Heap :=
  let l := fresh (dom (arrays h)) in
  (l, {| objects := objects h; arrays := <[l := v]> (arrays h) |}).

(** The references held by the array at [a]. *)
Definition elements (a : loc) (h : Heap) : list loc :=
  default [] (arrays h !! a).

(** The records the array at [a] refers to, in order. *)
Definition contents (a : loc) (h : Heap) : list ModelFit :=
  omap (fun r => objects h !! r) (elements a h).

(** [a.filter(pred)]: the callback reads the record behind each reference. *)
Definition Array_filter (pred : ModelFit -> bool) (a : loc) (h : Heap) : loc * Heap :=
  alloc (List.filter (fun r => from_option pred false (objects h !! r)) (elements a h)) h.

(** [[...a]] *)
Definition Array_spread (a : loc) (h : Heap) : loc * Heap :=
  alloc (elements a h) h.

(** The comparator applied to two references. *)
Definition by_reference (cmp : ModelFit -> ModelFit -> float) (h : Heap)
    (r1 r2 : loc) : float :=
  match objects h !! r1, objects h !! r2 with
  | Some m1, Some m2 => cmp m1 m2
  | _, _ => nan
  end.

(** Every reference of the array at [a] leads to a record. *)
Definition resolved (a : loc) (h : Heap) : Prop :=
  Forall (fun r => is_Some (objects h !! r)) (elements a h).

(** What a step that returns the array [out] and the heap [h'] may have
    done to [h]: no record is written, [out] was not an array of [h], and
    every other array is as it was. *)
Definition frames (h : Heap) (r : loc * Heap) : Prop :=
  objects (snd r) = objects h /\
  (arrays h !! (fst r) = None) /\
  (forall a, a <> fst r -> arrays (snd r) !! a = arrays h !! a).

Section Script.

Context `{Platform}.

(** [a.sort(cmp)]: sorts the array at [a] in place and returns [a]. *)
Definition Array_sort_in_place (cmp : ModelFit -> ModelFit -> float) (a : loc)
    (h : Heap) : loc * Heap :=
  (a, {| objects := objects h;
         arrays := <[a := Array_sort (by_reference cmp h) (elements a h)]> (arrays h) |}).

(** [getFilteredModels], with [allModels] the array at [all]. *)
Definition getFilteredModels (c : Controls) (all : loc) (h : Heap) : loc * Heap :=
  let search := toLowerCase (search_value c) in
  Array_filter
    (passesFilters search (filter_fit_value c) (filter_category_value c)
       (filter_installed_checked c))
    all h.

(** [sortModels(models)]: [[...models].sort(...)]. *)
Definition sortModels (key : string) (asc : bool) (models : loc) (h : Heap) : loc * Heap :=
  let r := Array_spread models h in
  Array_sort_in_place (comparator key asc) (fst r) (snd r).

(** Line 81: [sortModels(getFilteredModels())]. *)
Definition pipeline (c : Controls) (key : string) (asc : bool) (all : loc)
    (h : Heap) : loc * Heap :=
  let r := getFilteredModels c all h in
  sortModels key asc (fst r) (snd r).

End Script.

End Store.


(** ** The specification's vocabulary *)

Module Spec.

Import Text.

(** [sub] occurs in [s]: the meaning of "is a substring of". *)
Definition Substring (sub s : string) : Prop :=
  exists pre post, s = pre +:+ sub +:+ post.

(** The characters of a string. *)
Fixpoint chars (s : string) : list ascii :=
  match s with
  | EmptyString => []
  | String c rest => c :: chars rest
  end.

Section Filters.

Context `{Platform}.

(** The four predicates of the filter contract, each active only when its
    control is away from its "no filter" value. *)
Definition searchOk (c : Controls) (m : ModelFit) : Prop :=
  search_value c <> "" ->
  Substring (toLowerCase (search_value c)) (toLowerCase (name m)) \/
  Substring (toLowerCase (search_value c)) (toLowerCase (provider m)).

Definition fitLevelOk (c : Controls) (m : ModelFit) : Prop :=
  filter_fit_value c <> "all" -> fit_level m = filter_fit_value c.

Definition categoryOk (c : Controls) (m : ModelFit) : Prop :=
  filter_category_value c <> "all" -> category m = filter_category_value c.

Definition installedOk (c : Controls) (m : ModelFit) : Prop :=
  filter_installed_checked c = true -> installed m = true.

Definition satisfiesFilters (c : Controls) (m : ModelFit) : Prop :=
  searchOk c m /\ fitLevelOk c m /\ categoryOk c m /\ installedOk c m.

End Filters.

(** The selection key names a record of the current record set. *)
Definition selectionValid (p : Page) : Prop :=
  forall key, selectedModel (vars p) = Some key ->
              exists m, In m (allModels (vars p)) /\ name m = key.

(** The detail panel is shown: its class list holds [visible] and not
    [hidden]. *)
Definition panelShown (p : Page) : Prop :=
  ClassList.contains (detail_panel (detail p)) "visible" = true /\
  ClassList.contains (detail_panel (detail p)) "hidden" = false.

End Spec.

(** ** Sample data *)

Module Sample.

#[local] Set Warnings "-inexact-float".

(** A record with the given name, score, fit level and installed flag. *)
Definition record (n : string) (s : float) (level : string) (inst : bool) : ModelFit :=
  {| name := n; provider := "acme"; params := "7B"; score := s;
     fit_level := level; fit_emoji := "*"; estimated_tps := 12.5%float;
     best_quant := "Q4_K_M"; run_mode := "gpu"; utilization_pct := 143.7%float;
     context_length := 8192%float; installed := inst;
     memory_required_gb := 4.5%float; memory_available_gb := 8%float;
     score_memory := 10%float; score_speed := 15%float;
     score_quality := 20%float; score_context := 30%float;
     category := "general"; use_case := "chat"; notes := [] |}.

(** The two records of the end-to-end scenario. *)
Definition ax : ModelFit := record "a/x" 80%float "good" true.
Definition by_ : ModelFit := record "b/y" 95%float "perfect" false.

Definition modelA : ModelFit := record "modelA" 70%float "good" true.
Definition modelB : ModelFit := record "modelB" 60%float "tight" false.

(** A record whose text fields all carry markup. *)
Definition hostile : ModelFit :=
  {| name := "org/<b>m"; provider := "<i>acme</i>"; params := "<img src=x onerror=alert(1)>";
     score := 50%float; fit_level := "<u>good</u>"; fit_emoji := "<s>";
     estimated_tps := 1%float; best_quant := "<q>"; run_mode := "<script>";
     utilization_pct := 50%float; context_length := 4096%float;
     installed := false; memory_required_gb := 1%float;
     memory_available_gb := 2%float; score_memory := 1%float;
     score_speed := 1%float; score_quality := 1%float; score_context := 1%float;
     category := "<c>"; use_case := "<d>"; notes := ["<n>"] |}.

(** A record with a negative memory utilization. *)
Definition negative : ModelFit :=
  {| name := "a/neg"; provider := "acme"; params := "7B"; score := 50%float;
     fit_level := "good"; fit_emoji := "*"; estimated_tps := 1%float;
     best_quant := "Q4"; run_mode := "gpu"; utilization_pct := (-5)%float;
     context_length := 4096%float; installed := false;
     memory_required_gb := 1%float; memory_available_gb := 2%float;
     score_memory := (-5)%float; score_speed := 1%float;
     score_quality := 1%float; score_context := 1%float;
     category := "general"; use_case := "chat"; notes := [] |}.

(** A page of the second variant, as loaded. *)
Definition page2 : Variant2.Page :=
  {| Variant2.allFits := []; Variant2.search_value := "";
     Variant2.fit_filter_value := "all";
     Variant2.models_body := "<tr><td>Loading...</td></tr>";
     Variant2.console := [] |}.

(** A store with the two scenario records and, at location 10, the record
    set [[by_, ax]]. *)
Definition heap : Store.Heap :=
  {| Store.objects := {[ 1%positive := ax; 2%positive := by_ ]};
     Store.arrays := {[ 10%positive := [2%positive; 1%positive] ]} |}.

(** The controls with installed-only ticked and no other filter. *)
Definition controls_installed : Controls :=
  {| search_value := ""; filter_fit_value := "all";
     filter_category_value := "all"; filter_installed_checked := true |}.

Definition info : SystemInfo :=
  {| cpu := "cpu"; cores := 8%float; ram_gb := 16%float; gpu := "gpu";
     vram_gb := Some 8%float; unified_memory := false;
     ollama_available := true; ollama_installed_count := 2%float |}.

(** The page of a document whose controls are at "no filter", whose table
    body is a loading placeholder and whose detail panel is hidden. *)
Definition page0 : Page :=
  initial
    {| search_value := ""; filter_fit_value := "all";
       filter_category_value := "all"; filter_installed_checked := false |}
    {| sys_cpu := "-"; sys_ram := "-"; sys_gpu := "-"; sys_vram := "-";
       sys_ollama := "-"; sys_ollama_className := "sys-value" |}
    {| model_count := ""; model_tbody := "<tr><td>Loading models...</td></tr>";
       th_classes := {[ "score" := ["sorted"; "desc"] ]} |}
    {| detail_panel := ["detail-panel"; "hidden"]; detail_content := "" |}.

(** The page after the first load delivered the two scenario records. *)
Definition loaded : Page :=
  run (H := AsciiHost.host)
    [SystemInfoSettled (Resolved info); ModelFitsSettled (Resolved [ax; by_])] page0.

(** The same page with installed-only ticked. *)
Definition installedOnly : Page :=
  handle (H := AsciiHost.host) (InstalledChange true) loaded.

End Sample.
(** ** The system specs of the second variant (lines 284 to 299) *)

Module Variant2Specs.

Import Text Num.

(** The record [get_system_specs] delivers; [gpu_name] may be absent. *)
Record Specs := {
  cpu_name : string;
  cpu_cores : float;
  total_ram_gb : float;
  gpu_name : option string;
  gpu_vram_gb : float;
  gpu_backend : string;
}.

(** The text of [#cpu-name], [#cpu-cores], [#ram], [#gpu-name] and
    [#gpu-vram], and the console. *)
Record Panel := {
  cpu_name_text : string;
  cpu_cores_text : string;
  ram_text : string;
  gpu_name_text : string;
  gpu_vram_text : string;
  console : list string;
}.

(** [specs.gpu_name || 'No GPU detected'] *)
Definition gpuLabel (g : option string) : string :=
  match g with
  | Some s => if Text.truthy s then s else "No GPU detected"
  | None => "No GPU detected"
  end.

(** [loadSpecs] once the awaited [get_system_specs] has settled; the
    command resolves with [null] ([None]) where the backend is absent. *)
Definition loadSpecs (r : Outcome (option Specs)) (v : Panel) : Panel :=
  match r with
  | Resolved None => v
  | Resolved (Some specs) =>
      {| cpu_name_text := cpu_name specs;
         cpu_cores_text := Number_toString (cpu_cores specs) +:+ " cores";
         ram_text := toFixed (total_ram_gb specs) 1 +:+ " GB";
         gpu_name_text := gpuLabel (gpu_name specs);
         gpu_vram_text :=
           if (0 <? gpu_vram_gb specs)%float
           then toFixed (gpu_vram_gb specs) 1 +:+ " GB VRAM ("
                  +:+ gpu_backend specs +:+ ")"
           else "";
         console := console v |}
  | Rejected e =>
      {| cpu_name_text := "Error loading specs";
         cpu_cores_text := cpu_cores_text v;
         ram_text := ram_text v;
         gpu_name_text := gpu_name_text v;
         gpu_vram_text := gpu_vram_text v;
         console := console v ++ ["Failed to load specs: " +:+ e] |}
  end.

End Variant2Specs.

(** ** The view and the state it shows *)

Module View.

Section View.

Context `{Platform}.

(** The count and the rows on the page are the ones a render of the
    current variables and controls produces. *)
Definition rendered (p : Page) : Prop :=
  model_count (table p) = model_count (table (renderTable p)) /\
  model_tbody (table p) = model_tbody (table (renderTable p)).

End View.

(** [n] is the name of a record of the record set. *)
Definition known (n : string) (p : Page) : Prop :=
  exists m, In m (allModels (vars p)) /\ name m = n.

End View.

(** ** Escaped text *)

Module Escaped.

Import Text.

(** What follows an ampersand that starts a character reference. *)
Definition reference_follows (post : string) : Prop :=
  startsWith post "amp;" = true \/ startsWith post "lt;" = true \/
  startsWith post "gt;" = true \/ startsWith post "nbsp;" = true.

(** The no-break space, as its two bytes. *)
Definition nbsp : string :=
  String (ascii_of_nat 194) (String (ascii_of_nat 160) EmptyString).

End Escaped.

(** * Properties *)

(** ** Text *)

Module TextFacts.

Import Text Spec.

Lemma append_cons c (a b : string) : String c a +:+ b = String c (a +:+ b).
Proof. reflexivity. Qed.

Lemma append_nil_l (b : string) : "" +:+ b = b.
Proof. reflexivity. Qed.

Lemma append_assoc (a b c : string) : (a +:+ b) +:+ c = a +:+ (b +:+ c).
Proof.
  induction a as [|x a IH]; [reflexivity |].
  rewrite !append_cons, IH. reflexivity.
Qed.

Lemma append_nil_r (a : string) : a +:+ "" = a.
Proof.
  induction a as [|x a IH]; [reflexivity |].
  rewrite append_cons, IH. reflexivity.
Qed.

Lemma startsWith_spec s sub :
  startsWith s sub = true <-> exists post, s = sub +:+ post.
Proof.
  revert s; induction sub as [|a sub IH]; intros s.
  - split; [intros _; exists s; reflexivity | intros _; destruct s; reflexivity].
  - destruct s as [|b s]; cbn [startsWith].
    + split; [discriminate | intros [post E]; discriminate].
    + rewrite andb_true_iff, Ascii.eqb_eq, IH. split.
      * intros [-> [post ->]]. exists post. reflexivity.
      * intros [post E]. rewrite append_cons in E. injection E as -> ->.
        split; [reflexivity | eauto].
Qed.

Lemma includes_spec s sub : includes s sub = true <-> Substring sub s.
Proof.
  unfold Substring. induction s as [|c s IH].
  - cbn [includes]. rewrite orb_false_r, startsWith_spec. split.
    + intros [post E]. exists "", post. exact E.
    + intros [pre [post E]]. destruct pre; [eauto | discriminate].
  - cbn [includes]. rewrite orb_true_iff, startsWith_spec, IH. split.
    + intros [[post E] | [pre [post E]]].
      * exists "", post. exact E.
      * exists (String c pre), post. rewrite append_cons. now rewrite E.
    + intros [pre [post E]]. destruct pre as [|d pre].
      * left. eauto.
      * right. rewrite append_cons in E. injection E as _ E. eauto.
Qed.

Lemma includes_empty s : includes s "" = true.
Proof. destruct s; reflexivity. Qed.

Lemma truthy_false s : truthy s = false <-> s = "".
Proof. destruct s; simpl; split; intros E; try reflexivity; discriminate E. Qed.

Lemma Substring_refl s : Substring s s.
Proof. exists "", "". now rewrite append_nil_l, append_nil_r. Qed.

Lemma Substring_app_l sub a b : Substring sub b -> Substring sub (a +:+ b).
Proof.
  intros [pre [post ->]]. exists (a +:+ pre), post. now rewrite append_assoc.
Qed.

Lemma Substring_app_r sub a b : Substring sub a -> Substring sub (a +:+ b).
Proof.
  intros [pre [post ->]]. exists pre, (post +:+ b).
  now rewrite !append_assoc.
Qed.

Lemma Substring_trans a b c : Substring a b -> Substring b c -> Substring a c.
Proof.
  intros Hab [pre [post ->]]. now apply Substring_app_l, Substring_app_r.
Qed.

(** A piece of a concatenation occurs in the whole. *)
Lemma Substring_cat x l : In x l -> Substring x (cat l).
Proof.
  induction l as [|y l IH]; simpl; [tauto |].
  intros [-> | Hin].
  - apply Substring_app_r, Substring_refl.
  - apply Substring_app_l, IH, Hin.
Qed.

Lemma cat_app l1 l2 : cat (l1 ++ l2)%list = cat l1 +:+ cat l2.
Proof.
  unfold cat. induction l1 as [|x l1 IH]; [reflexivity |].
  simpl. now rewrite IH, append_assoc.
Qed.

(** Consecutive pieces of a concatenation occur in the whole, side by side. *)
Lemma Substring_sublist k n l :
  Substring (cat (List.firstn n (List.skipn k l))) (cat l).
Proof.
  exists (cat (List.firstn k l)), (cat (List.skipn n (List.skipn k l))).
  rewrite <- !cat_app. now rewrite !firstn_skipn.
Qed.

Lemma Substring_nth k l x : nth_error l k = Some x -> Substring x (cat l).
Proof.
  intros E. apply Substring_cat. eapply nth_error_In, E.
Qed.

Lemma chars_app a b : chars (a +:+ b) = (chars a ++ chars b)%list.
Proof.
  induction a as [|x a IH]; [reflexivity |].
  rewrite append_cons. simpl. now rewrite IH.
Qed.

(** Escaped text holds neither [<] nor [>]. *)
Lemma escapeHtml_no_angle str c :
  In c (chars (escapeHtml str)) -> c <> "<"%char /\ c <> ">"%char.
Proof.
  remember (String.length str) as n eqn:Hn.
  revert str Hn c. induction n as [n IH] using lt_wf_ind. intros str Hn c.
  destruct str as [|a rest]; [simpl; tauto |].
  assert (Hrest : forall x, In x (chars (escapeHtml rest)) ->
                            x <> "<"%char /\ x <> ">"%char).
  { intros x. apply (IH (String.length rest)); [subst; simpl; lia | reflexivity]. }
  cbn [escapeHtml].
  destruct (Ascii.eqb a "&") eqn:E1.
  { rewrite chars_app. rewrite in_app_iff. intros [Hc | Hc]; [| auto].
    simpl in Hc. intuition (subst; discriminate). }
  destruct (Ascii.eqb a "<") eqn:E2.
  { rewrite chars_app. rewrite in_app_iff. intros [Hc | Hc]; [| auto].
    simpl in Hc. intuition (subst; discriminate). }
  destruct (Ascii.eqb a ">") eqn:E3.
  { rewrite chars_app. rewrite in_app_iff. intros [Hc | Hc]; [| auto].
    simpl in Hc. intuition (subst; discriminate). }
  apply Ascii.eqb_neq in E2, E3.
  destruct (Ascii.eqb a (ascii_of_nat 194)) eqn:E4.
  - destruct rest as [|d rest'].
    + simpl. intros [<- | []]. auto.
    + destruct (Ascii.eqb d (ascii_of_nat 160)) eqn:E5.
      * rewrite chars_app, in_app_iff. intros [Hc | Hc].
        -- simpl in Hc. intuition (subst; discriminate).
        -- apply (IH (String.length rest')) with (str := rest');
             [subst; simpl; lia | reflexivity | exact Hc].
      * cbn [chars]. intros [<- | Hc]; auto.
  - cbn [chars]. intros [<- | Hc]; auto.
Qed.

End TextFacts.

(** ** Sorting *)

Module SortFacts.

Lemma sort_insert_perm {A} (cmp : A -> A -> float) x l :
  sort_insert cmp x l ≡ₚ x :: l.
Proof.
  induction l as [|y l IH]; simpl; [reflexivity |].
  destruct (0 <? cmp x y)%float; [| reflexivity].
  rewrite IH. apply Permutation_swap.
Qed.

(** Sorting rearranges: nothing is added, dropped or changed. *)
Lemma Array_sort_perm {A} (cmp : A -> A -> float) l : Array_sort cmp l ≡ₚ l.
Proof.
  induction l as [|x l IH]; simpl; [reflexivity |].
  unfold Array_sort in IH. rewrite sort_insert_perm. now rewrite IH.
Qed.

Lemma Array_sort_length {A} (cmp : A -> A -> float) l :
  length (Array_sort cmp l) = length l.
Proof. apply Permutation_length, Array_sort_perm. Qed.

Lemma Array_sort_In {A} (cmp : A -> A -> float) l x :
  In x (Array_sort cmp l) <-> In x l.
Proof.
  split; apply Permutation_in; [| symmetry]; apply Array_sort_perm.
Qed.

End SortFacts.

(** ** The first variant *)

Section Properties.

Context `{Platform}.

Import Text Num Spec TextFacts SortFacts.

(** *** Frames: what each step leaves alone *)

Lemma renderTable_vars p : vars (renderTable p) = vars p.
Proof. reflexivity. Qed.

Lemma renderTable_detail p : detail (renderTable p) = detail p.
Proof. reflexivity. Qed.

Lemma renderTable_controls p : controls (renderTable p) = controls p.
Proof. reflexivity. Qed.

(** *** Filtering *)

(** A test of the form "filter active and value different". *)
Lemma differs_false (f v : string) :
  negb (String.eqb f "all") && negb (String.eqb v f) = false <->
  (f <> "all" -> v = f).
Proof.
  destruct (String.eqb_spec f "all"), (String.eqb_spec v f); simpl;
    intuition congruence.
Qed.

Lemma search_false search n pr :
  Text.truthy search && negb (includes n search) && negb (includes pr search) = false <->
  (search <> "" -> Substring search n \/ Substring search pr).
Proof.
  rewrite <- !includes_spec.
  destruct search; simpl; [intuition congruence |].
  destruct (includes n _), (includes pr _); simpl; intuition congruence.
Qed.

Lemma installed_false (only inst : bool) :
  only && negb inst = false <-> (only = true -> inst = true).
Proof. destruct only, inst; simpl; intuition congruence. Qed.

Lemma passesFilters_true search fitFilter catFilter installedOnly m :
  passesFilters search fitFilter catFilter installedOnly m = true <->
  (search <> "" ->
     Substring search (toLowerCase (name m)) \/
     Substring search (toLowerCase (provider m))) /\
  (fitFilter <> "all" -> fit_level m = fitFilter) /\
  (catFilter <> "all" -> category m = catFilter) /\
  (installedOnly = true -> installed m = true).
Proof.
  unfold passesFilters.
  rewrite <- search_false, <- !differs_false, <- installed_false.
  destruct (Text.truthy search && _ && _);
  destruct (negb (String.eqb fitFilter "all") && _);
  destruct (negb (String.eqb catFilter "all") && _);
  destruct (installedOnly && _); intuition congruence.
Qed.

Lemma filtered_iff (Hlower : toLowerCase "" = "") p m :
  In m (getFilteredModels p) <->
  In m (allModels (vars p)) /\ satisfiesFilters (controls p) m.
Proof.
  unfold getFilteredModels. rewrite filter_In, passesFilters_true.
  unfold satisfiesFilters, searchOk, fitLevelOk, categoryOk, installedOk.
  destruct (string_dec (search_value (controls p)) "") as [E | E].
  - rewrite E, Hlower. intuition congruence.
  - destruct (string_dec (toLowerCase (search_value (controls p))) "") as [E' | E'].
    + rewrite E'. split.
      * intros (Hin & _ & H2 & H3 & H4). repeat split; auto.
        intros _. left. exists "", (toLowerCase (name m)). reflexivity.
      * intros (Hin & _ & H2 & H3 & H4). repeat split; auto. congruence.
    + intuition congruence.
Qed.

(** C5.  A record is in the filtered output exactly when it is in the
    record set and satisfies every active predicate: the lower-cased
    search text, if the search text is not empty, occurs in the lower-cased
    name or provider; the fit level equals the fit filter unless that is
    "all"; the category equals the category filter unless that is "all";
    and the record is installed if installed-only is ticked.  The same
    holds of the rows that are rendered, which are the filtered output
    sorted.  (The host's lower-casing maps the empty text to itself.) *)
Theorem getFilteredModels_iff (Hlower : toLowerCase "" = "") p m :
  (In m (getFilteredModels p) <->
   In m (allModels (vars p)) /\ satisfiesFilters (controls p) m) /\
  (In m (sortModels p (getFilteredModels p)) <->
   In m (allModels (vars p)) /\ satisfiesFilters (controls p) m).
Proof.
  split; [now apply filtered_iff |].
  unfold sortModels. rewrite Array_sort_In. now apply filtered_iff.
Qed.

(** *** Sorting *)

(** The comparator by the type of the sort key's property.  Text:
    both values lower-cased and compared by [localeCompare], with the
    operands swapped for descending order (no negation).  Boolean: both
    coerced to 1 or 0 and subtracted.  Number: subtracted.  Anything else
    (the notes array, a missing property): converted to numbers and
    subtracted.  In every case descending order is the ascending comparison
    with the operands exchanged. *)
Theorem comparator_by_type key asc a b :
  (forall get, property key = PString get ->
     comparator key asc a b =
       if asc then localeCompare (toLowerCase (get a)) (toLowerCase (get b))
       else localeCompare (toLowerCase (get b)) (toLowerCase (get a))) /\
  (forall get, property key = PBoolean get ->
     comparator key asc a b =
       if asc then (of_bool (get a) - of_bool (get b))%float
       else (of_bool (get b) - of_bool (get a))%float) /\
  (forall get, property key = PNumber get ->
     comparator key asc a b =
       if asc then (get a - get b)%float else (get b - get a)%float) /\
  (forall get, property key = PArray get ->
     comparator key asc a b =
       if asc then (ToNumber_array (get a) - ToNumber_array (get b))%float
       else (ToNumber_array (get b) - ToNumber_array (get a))%float) /\
  (property key = PMissing -> comparator key asc a b = nan) /\
  comparator key false a b = comparator key true b a.
Proof.
  unfold comparator.
  split; [intros get E; rewrite E; reflexivity |].
  split; [intros get E; rewrite E; reflexivity |].
  split; [intros get E; rewrite E; reflexivity |].
  split; [intros get E; rewrite E; reflexivity |].
  split; [intros E; rewrite E; destruct asc; reflexivity |].
  destruct (property key); reflexivity.
Qed.

(** *** Column headers *)

(** C7.  A click on the header of [key]: the sort key becomes [key]; the
    direction is flipped if [key] was already the sort key and is
    descending otherwise; and the table is rendered in that order. *)
Theorem headerClick_sort key p :
  let p' := headerClick key p in
  sortKey (vars p') = key /\
  (sortKey (vars p) = key -> sortAsc (vars p') = negb (sortAsc (vars p))) /\
  (sortKey (vars p) <> key -> sortAsc (vars p') = false) /\
  model_tbody (table p') =
    join_empty
      (List.map (rowMarkup (selectedModel (vars p)))
         (Array_sort (comparator key (sortAsc (vars p'))) (getFilteredModels p))).
Proof.
  unfold headerClick.
  destruct (String.eqb_spec (sortKey (vars p)) key) as [E | E]; simpl.
  - rewrite E. repeat split; congruence.
  - repeat split; congruence.
Qed.

(** *** The count summary *)

(** C8, as the script has it.  After a render the count summary is
    "V of T models": V the number of records that pass the active filters,
    T the size of the record set. *)
Theorem renderTable_count p :
  model_count (table (renderTable p)) =
    cat [ of_nat (length (getFilteredModels p)); " of ";
          of_nat (length (allModels (vars p))); " models" ].
Proof.
  unfold renderTable, sortModels. cbn [table set_table model_count countText].
  rewrite Array_sort_length. reflexivity.
Qed.

(** *** Selection *)

(** C1, as the script has it.  A refresh, whatever the two commands
    deliver, leaves the selection key and the detail panel (its class list
    and its content) as they were. *)
Theorem refresh_keeps_selection info models p :
  selectedModel (vars (refresh info models p)) = selectedModel (vars p) /\
  detail (refresh info models p) = detail p.
Proof.
  unfold refresh. destruct info, models; split; reflexivity.
Qed.

(** The class list after [remove] and [add]. *)
Lemma contains_In cl u : ClassList.contains cl u = true <-> In u cl.
Proof.
  unfold ClassList.contains. rewrite existsb_exists. split.
  - intros [x [Hin E]]. apply String.eqb_eq in E. now subst.
  - intros Hin. exists u. split; [exact Hin | apply String.eqb_refl].
Qed.

Lemma contains_add1 cl t u :
  ClassList.contains (ClassList.add1 cl t) u =
  ClassList.contains cl u || String.eqb u t.
Proof.
  apply Bool.eq_iff_eq_true.
  rewrite orb_true_iff, String.eqb_eq, !contains_In. unfold ClassList.add1.
  destruct (ClassList.contains cl t) eqn:E.
  - apply contains_In in E. split; [auto | intros [H0 | ->]; auto].
  - rewrite in_app_iff. simpl. intuition congruence.
Qed.

Lemma contains_remove1 cl t u :
  ClassList.contains (ClassList.remove [t] cl) u =
  ClassList.contains cl u && negb (String.eqb u t).
Proof.
  apply Bool.eq_iff_eq_true.
  rewrite andb_true_iff, negb_true_iff, !contains_In.
  unfold ClassList.remove. rewrite filter_In, negb_true_iff.
  unfold ClassList.contains. simpl. now rewrite orb_false_r.
Qed.

(** A row click on a record of the set selects it, shows the panel and
    fills it from that record. *)
Lemma showDetail_known n p m :
  List.find (fun m => String.eqb (name m) n) (allModels (vars p)) = Some m ->
  selectedModel (vars (showDetail n p)) = Some n /\
  panelShown (showDetail n p) /\
  detail_content (detail (showDetail n p)) = detailMarkup m.
Proof.
  intros Efind. unfold showDetail, panelShown.
  cbn [vars set_selectedModel set_vars allModels]. rewrite Efind.
  cbn [renderTable set_table set_detail vars detail detail_panel detail_content
       set_selectedModel set_vars selectedModel ClassList.add fold_left].
  rewrite !contains_add1, !contains_remove1. simpl.
  repeat split.
  - now rewrite orb_true_r.
  - now rewrite andb_false_r.
Qed.

(** The close control clears the selection and hides the panel. *)
Lemma closeDetail_clears p :
  selectedModel (vars (closeDetail p)) = None /\
  ClassList.contains (detail_panel (detail (closeDetail p))) "visible" = false /\
  ClassList.contains (detail_panel (detail (closeDetail p))) "hidden" = true.
Proof.
  unfold closeDetail.
  cbn [renderTable set_table set_detail vars detail detail_panel
       set_selectedModel set_vars selectedModel ClassList.add fold_left].
  rewrite !contains_add1, !contains_remove1. simpl.
  repeat split; [now rewrite andb_false_r | now rewrite orb_true_r].
Qed.

(** Among all events only the close control and the Escape key clear a
    selection; a refresh is not among them. *)
Lemma selection_cleared_only_by_close e p :
  selectedModel (vars p) <> None ->
  selectedModel (vars (handle e p)) = None ->
  e = CloseClick \/ e = KeyDown "Escape".
Proof.
  intros Hsel Hnone.
  destruct e as [t | v | v | b | n | | key | key | r | r]; cbn [handle] in Hnone;
    try (now left); try (exfalso; apply Hsel; exact Hnone).
  - unfold showDetail in Hnone.
    destruct (List.find _ _) in Hnone; discriminate Hnone.
  - unfold keydown in Hnone.
    destruct (String.eqb_spec key "Escape") as [-> | Hkey]; [now right |].
    exfalso; apply Hsel; exact Hnone.
  - unfold headerClick in Hnone.
    destruct (String.eqb (sortKey (vars p)) key);
      exfalso; apply Hsel; exact Hnone.
  - destruct r; exfalso; apply Hsel; exact Hnone.
  - destruct r; exfalso; apply Hsel; exact Hnone.
Qed.

(** C10.  [showDetail] with a name that no record carries: the selection
    key is set to that name and nothing else on the page changes; the
    detail panel, the rendered table and the count keep their old values,
    and the selection key names no record. *)
Theorem showDetail_unknown n p :
  (forall m, In m (allModels (vars p)) -> name m <> n) ->
  let p' := showDetail n p in
  p' = set_selectedModel (Some n) p /\
  selectedModel (vars p') = Some n /\
  detail p' = detail p /\
  table p' = table p /\
  ~ selectionValid p'.
Proof.
  intros Hnone. unfold showDetail.
  destruct (List.find _ _) as [m |] eqn:Efind.
  - apply find_some in Efind as [Hin Hname].
    apply String.eqb_eq in Hname. now apply Hnone in Hin.
  - cbv zeta. repeat split.
    intros Hvalid. destruct (Hvalid n eq_refl) as [m [Hin Hname]].
    now apply (Hnone m).
Qed.

End Properties.

(** ** Arrays as shared objects *)

Section StoreProperties.

Context `{Platform}.

Import Store SortFacts.

Lemma alloc_frames v h : frames h (alloc v h).
Proof.
  unfold frames, alloc; simpl. split; [reflexivity |]. split.
  - apply not_elem_of_dom, is_fresh.
  - intros a Ha. now rewrite lookup_insert_ne.
Qed.

Lemma alloc_elements v h : elements (fst (alloc v h)) (snd (alloc v h)) = v.
Proof. unfold elements, alloc; simpl. now rewrite lookup_insert_eq. Qed.

Lemma Array_filter_frames pred a h : frames h (Array_filter pred a h).
Proof. apply alloc_frames. Qed.

Lemma Array_spread_frames a h : frames h (Array_spread a h).
Proof. apply alloc_frames. Qed.

Lemma getFilteredModels_frames c all h : frames h (Store.getFilteredModels c all h).
Proof. apply Array_filter_frames. Qed.

Lemma sortModels_frames key asc models h : frames h (Store.sortModels key asc models h).
Proof.
  unfold Store.sortModels, Array_sort_in_place.
  destruct (Array_spread_frames models h) as (Hobj & Hnew & Hold).
  unfold frames; simpl. split; [exact Hobj |]. split; [exact Hnew |].
  intros a Ha. rewrite lookup_insert_ne by congruence. now apply Hold.
Qed.

(** The array that [sortModels] returns holds the references of its
    argument, sorted. *)
Lemma sortModels_elements key asc models h :
  elements (fst (Store.sortModels key asc models h))
           (snd (Store.sortModels key asc models h)) =
  Array_sort (by_reference (comparator key asc) h) (elements models h).
Proof.
  unfold Store.sortModels, Array_sort_in_place, Array_spread, alloc, elements.
  cbn [fst snd arrays objects].
  rewrite !lookup_insert_eq. reflexivity.
Qed.

(** An array that was there before a framed step reads the same after it. *)
Lemma frames_old h r a : frames h r -> is_Some (arrays h !! a) ->
  arrays (snd r) !! a = arrays h !! a.
Proof.
  intros (_ & Hnew & Hold) [v Hv]. apply Hold. intros ->. congruence.
Qed.

(** C9.  Sorting returns an array that did not exist before and leaves
    every existing array (its argument among them) and every record as
    they were; so does filtering; and so does the two together as the
    render step runs them on the record set. *)
Theorem filter_sort_frame c key asc a h :
  frames h (Store.sortModels key asc a h) /\
  frames h (Store.getFilteredModels c a h) /\
  objects (snd (pipeline c key asc a h)) = objects h /\
  (forall x, is_Some (arrays h !! x) ->
     arrays (snd (pipeline c key asc a h)) !! x = arrays h !! x /\
     x <> fst (pipeline c key asc a h)).
Proof.
  split; [apply sortModels_frames |].
  split; [apply getFilteredModels_frames |].
  unfold pipeline.
  pose proof (getFilteredModels_frames c a h) as F1.
  set (r1 := Store.getFilteredModels c a h) in *.
  pose proof (sortModels_frames key asc (fst r1) (snd r1)) as F2.
  set (r2 := Store.sortModels key asc (fst r1) (snd r1)) in *.
  split.
  - destruct F1 as (O1 & _), F2 as (O2 & _). congruence.
  - intros x Hx.
    assert (H1 : arrays (snd r1) !! x = arrays h !! x) by now apply frames_old.
    assert (Hx1 : is_Some (arrays (snd r1) !! x)) by now rewrite H1.
    split.
    + rewrite <- H1. now apply frames_old.
    + destruct F2 as (_ & Hnew & _). intros ->.
      rewrite Hnew in Hx1. now destruct Hx1.
Qed.

(** The records behind two lists of references, pairwise. *)
Lemma sort_insert_Forall2 cmp h x m l ms :
  objects h !! x = Some m ->
  Forall2 (fun r m => objects h !! r = Some m) l ms ->
  Forall2 (fun r m => objects h !! r = Some m)
    (sort_insert (by_reference cmp h) x l) (sort_insert cmp m ms).
Proof.
  intros Hx HF. induction HF as [| y my l ms Hy HF IH]; simpl.
  - repeat constructor. exact Hx.
  - unfold by_reference at 1. rewrite Hx, Hy.
    destruct (0 <? cmp m my)%float; repeat constructor; auto.
Qed.

Lemma omap_Forall2 h l ms :
  Forall2 (fun r m => objects h !! r = Some m) l ms ->
  omap (fun r => objects h !! r) l = ms.
Proof.
  induction 1 as [| r m l ms Hr HF IH]; [reflexivity |].
  cbn [omap list_omap]. rewrite Hr. f_equal. exact IH.
Qed.

(** The store-level [sortModels] computes what [sortModels] on record
    lists computes, when every reference of the argument leads to a
    record. *)
Lemma sortModels_contents key asc models h :
  resolved models h ->
  contents (fst (Store.sortModels key asc models h))
           (snd (Store.sortModels key asc models h)) =
  Array_sort (comparator key asc) (contents models h).
Proof.
  intros Hres. unfold contents. rewrite sortModels_elements.
  destruct (sortModels_frames key asc models h) as (Hobj & _). rewrite Hobj.
  unfold resolved in Hres.
  assert (HF : exists ms, Forall2 (fun r m => objects h !! r = Some m)
                            (elements models h) ms).
  { induction Hres as [| r l [m Hr] _ [ms IH]].
    - exists []. constructor.
    - exists (m :: ms). now constructor. }
  destruct HF as [ms HF]. rewrite (omap_Forall2 _ _ _ HF).
  apply omap_Forall2.
  clear Hres. induction HF as [| r m l ms Hr HF IH]; simpl; [constructor |].
  now apply sort_insert_Forall2.
Qed.

End StoreProperties.

(** ** Markup *)

Section Markup.

Context `{Platform}.

Import Text Num Spec TextFacts.


(** Finds consecutive pieces: the position of the first one, then the
    sublist lemma. *)
Ltac position l k a :=
  lazymatch l with
  | a :: _ => constr:(k)
  | _ :: ?t => position t (S k) a
  end.

(** Finds one piece in the list of a template. *)
Ltac piece :=
  lazymatch goal with
  | |- Substring ?a (?f ?x ?y) =>
      let l := eval cbv delta [f] beta in (f x y) in
      lazymatch l with
      | cat ?l' => let k := position l' O a in exact (Substring_nth k l' a eq_refl)
      end
  | |- Substring ?a (?f ?x) =>
      let l := eval cbv delta [f] beta in (f x) in
      lazymatch l with
      | cat ?l' => let k := position l' O a in exact (Substring_nth k l' a eq_refl)
      end
  end.

Ltac pieces :=
  lazymatch goal with
  | |- Substring (cat (?a :: ?rest)) (cat ?l) =>
      let k := position l O a in
      let n := constr:(length (a :: rest)) in
      exact (Substring_sublist k n l)
  end.

(** C2.  What the templates do with the text fields.  The row template
    inserts the name (as the [data-name] attribute), params, fit level,
    fit emoji, best quantization and run mode as they are; the detail
    template inserts fit level, fit emoji, run mode and best quantization
    as they are; the second variant's row template inserts name,
    quantization, fit level, run mode and use case as they are.  So any
    markup in these fields is in the rendered markup, unescaped. *)
Theorem raw_fields_in_markup :
  (forall sel m,
     Forall (fun field => Substring field (rowMarkup sel m))
       [name m; params m; fit_level m; fit_emoji m; best_quant m; run_mode m]) /\
  (forall m,
     Forall (fun field => Substring field (detailMarkup m))
       [fit_level m; fit_emoji m; run_mode m; best_quant m]) /\
  (forall f,
     Forall (fun field => Substring field (Variant2.rowMarkup f))
       [Variant2.name f; Variant2.quant f; Variant2.fit_level f;
        Variant2.run_mode f; Variant2.use_case f]).
Proof.
  split; [| split]; intros; repeat constructor; piece.
Qed.

(** The fields that do go through [escapeHtml] arrive escaped. *)
Lemma escaped_fields_in_markup sel m :
  Substring (escapeHtml (split_slash_pop (name m))) (rowMarkup sel m) /\
  Substring (escapeHtml (provider m)) (rowMarkup sel m) /\
  Forall (fun field => Substring (escapeHtml field) (detailMarkup m))
    [split_slash_pop (name m); provider m; name m; category m; use_case m].
Proof.
  split; [| split]; repeat constructor; piece.
Qed.

(** *** The memory bar *)

(** Below 100 the bar width is the utilization itself, whatever its sign. *)
Lemma Math_min_below u : (u <? 100)%float = true -> Math_min u 100 = u.
Proof. intros E. unfold Math_min. now rewrite E. Qed.

(** Above 100 the bar width is 100. *)
Lemma Math_min_above u :
  (u <? 100)%float = false -> (100 <? u)%float = true -> Math_min u 100 = 100%float.
Proof. intros E1 E2. unfold Math_min. now rewrite E1, E2. Qed.

(** The bar and its label in the detail markup: the width is the printed
    [Math.min(utilization_pct, 100)], the label the utilization to one
    decimal, uncapped. *)
Lemma detail_bar_and_label m :
  Substring (cat [ "width: "; Number_toString (Math_min (utilization_pct m) 100); "%" ])
    (detailMarkup m) /\
  Substring (cat [ "<span>"; toFixed (utilization_pct m) 1; "%</span>" ])
    (detailMarkup m).
Proof.
  split; unfold detailMarkup.
  - pieces.
  - apply Substring_trans
      with (cat [ "          <span>"; toFixed (utilization_pct m) 1; "%</span>" ]).
    + exists "          ", "". now rewrite append_nil_r.
    + pieces.
Qed.

(** C4, at a negative utilization.  The bar width of the detail panel is
    the utilization itself, here -5, not 0; the score bars next to it do
    clamp at 0. *)
Theorem detail_bar_negative :
  Math_min (utilization_pct Sample.negative) 100 = (-5)%float /\
  includes (detailMarkup Sample.negative)
    (cat [ "score-bar-fill memory"; dq; " style="; dq; "width: -5%"; dq ]) = true /\
  includes (scoreBar "Memory" (score_memory Sample.negative) "memory")
    (cat [ "score-bar-fill memory"; dq; " style="; dq; "width: 0%"; dq ]) = true.
Proof. repeat split; vm_compute; reflexivity. Qed.

End Markup.

(** ** Failed loads *)

Section Loads.

Context `{Platform}.

(** C3, on both variants.  In the first variant a rejected
    [get_model_fits] leaves the table (count, rows, header classes) and
    the variables exactly as they were: no error state is shown.  In the
    second variant it puts the "Error loading models" row in the table
    body, an empty result puts the "No models found" row there, and the
    two rows differ. *)
Theorem failed_load_table e :
  (forall p, table (loadModels (Rejected e) p) = table p /\
             vars (loadModels (Rejected e) p) = vars p) /\
  (forall p, Variant2.models_body (Variant2.loadModels (Rejected e) p) =
             Variant2.errorRow) /\
  (forall p, Variant2.models_body (Variant2.loadModels (Resolved (Some [])) p) =
             Variant2.noModelsRow) /\
  Variant2.errorRow <> Variant2.noModelsRow.
Proof.
  split; [intros p; split; reflexivity |].
  split; [intros p; reflexivity |].
  split.
  - intros p. unfold Variant2.loadModels, Variant2.applyFilters; simpl.
    destruct (Text.truthy _), (negb _); reflexivity.
  - intros E. discriminate E.
Qed.

End Loads.

(** ** The scenarios of the specification, run on the ASCII host *)

Module Scenario.

Import Text Num Spec Sample.

#[local] Existing Instance AsciiHost.host.
#[local] Set Warnings "-inexact-float".

(** Default sort, score descending. *)
Example default_order :
  List.map name (sortModels loaded (getFilteredModels loaded)) = ["b/y"; "a/x"].
Proof. vm_compute. reflexivity. Qed.

(** Context length 8192 is shown as 8k; utilization 143.7 gives a bar of
    width 100 and the label 143.7%. *)
Example formatting :
  toFixed (8192 / 1000)%float 0 = "8" /\
  Number_toString (Math_min 143.7%float 100) = "100" /\
  toFixed 143.7%float 1 = "143.7".
Proof. repeat split; vm_compute; reflexivity. Qed.

(** A string field is sorted without regard to case. *)
Example case_insensitive :
  List.map name
    (Array_sort (comparator "name" true)
       [record "Zeta" 1%float "good" true; record "alpha" 2%float "good" true]) =
  ["alpha"; "Zeta"].
Proof. vm_compute. reflexivity. Qed.

(** A hostile record: the params cell holds the markup of the field, the
    provider cell its escaped form. *)
Example hostile_row :
  let html := model_tbody (table (loadModels (Resolved [hostile]) page0)) in
  includes html "<td><img src=x onerror=alert(1)></td>" = true /\
  includes html "&lt;i&gt;acme&lt;/i&gt;" = true /\
  includes html "<i>acme</i>" = false.
Proof. repeat split; vm_compute; reflexivity. Qed.

(** A failed first load: the table body still holds what the document
    came with. *)
Example failed_first_load :
  model_tbody (table (loadModels (Rejected "backend down") page0)) =
  model_tbody (table page0).
Proof. reflexivity. Qed.

(** The same failure in the second variant: the error row replaces the
    placeholder. *)
Example failed_load_second_variant :
  let p := Variant2.loadModels (Rejected "backend down") page2 in
  includes (Variant2.models_body p) "Error loading models" = true /\
  includes (Variant2.models_body p) "Loading..." = false.
Proof. split; vm_compute; reflexivity. Qed.

(** C1, refuted as stated.  Select "modelA", then refresh with a record
    set that has no "modelA": the selection key is still "modelA", the
    panel is still shown, and the key names no record. *)
Lemma stale_selection_after_refresh :
  let before :=
    run [SystemInfoSettled (Resolved info); ModelFitsSettled (Resolved [modelA]);
         RowClick "modelA"] page0 in
  let after := refresh (Resolved info) (Resolved [modelB]) before in
  selectedModel (vars before) = Some "modelA" /\
  List.map name (allModels (vars after)) = ["modelB"] /\
  selectedModel (vars after) = Some "modelA" /\
  panelShown after /\
  ~ selectionValid after.
Proof.
  cbv zeta. split; [vm_compute; reflexivity |].
  split; [vm_compute; reflexivity |].
  split; [vm_compute; reflexivity |].
  split; [split; vm_compute; reflexivity |].
  intros Hvalid. destruct (Hvalid "modelA") as [m [Hin Hname]].
  - vm_compute. reflexivity.
  - vm_compute in Hin. destruct Hin as [<- | []]. discriminate Hname.
Qed.

(** C8, refuted as stated, on the wording of the label.  With the two
    scenario records and installed-only ticked, one record is visible of
    two, and the label reads "1 of 2 models", not "1 of 2 records". *)
Lemma count_label_wording :
  let p := installedOnly in
  List.map name (getFilteredModels p) = ["a/x"] /\
  length (allModels (vars p)) = 2 /\
  model_count (table p) = "1 of 2 models" /\
  model_count (table p) <> "1 of 2 records".
Proof.
  cbv zeta. split; [vm_compute; reflexivity |].
  split; [vm_compute; reflexivity |].
  split; [vm_compute; reflexivity |].
  vm_compute. discriminate.
Qed.

(** C5 at the scenario: with installed-only ticked, "a/x" is in the
    filtered output and among the rendered rows. *)
Lemma getFilteredModels_iff_witness :
  toLowerCase "" = "" /\
  In ax (getFilteredModels installedOnly) /\
  In ax (sortModels installedOnly (getFilteredModels installedOnly)).
Proof.
  assert (Hlower : toLowerCase "" = "") by reflexivity.
  destruct (getFilteredModels_iff (H := AsciiHost.host) Hlower installedOnly ax)
    as [Hfiltered Hrows].
  assert (Hax : In ax (allModels (vars installedOnly)) /\
                satisfiesFilters (controls installedOnly) ax).
  { split; [left; reflexivity |].
    repeat split; intros E; try reflexivity; now vm_compute in E. }
  split; [exact Hlower |].
  split; [apply Hfiltered, Hax | apply Hrows, Hax].
Defined.

(** The comparator at the scenario: names are compared as lower-cased text, scores by
    subtraction, installed flags as 1 and 0. *)
Lemma comparator_by_type_witness :
  comparator "name" true ax by_ = localeCompare (toLowerCase "a/x") (toLowerCase "b/y") /\
  comparator "score" false ax by_ = (95 - 80)%float /\
  comparator "installed" true ax by_ = (1 - 0)%float.
Proof.
  destruct (comparator_by_type (H := AsciiHost.host) "name" true ax by_) as (Hs & _).
  destruct (comparator_by_type (H := AsciiHost.host) "score" false ax by_) as (_ & _ & Hn & _).
  destruct (comparator_by_type (H := AsciiHost.host) "installed" true ax by_) as (_ & Hb & _).
  split; [exact (Hs name eq_refl) |].
  split; [exact (Hn score eq_refl) | exact (Hb installed eq_refl)].
Defined.

(** C7 at the scenario: the page sorts by score; a click on "name" adopts
    it, descending, and a second click flips to ascending. *)
Lemma headerClick_sort_witness :
  sortKey (vars (headerClick "name" loaded)) = "name" /\
  sortAsc (vars (headerClick "name" loaded)) = false /\
  sortAsc (vars (headerClick "name" (headerClick "name" loaded))) = true.
Proof.
  destruct (headerClick_sort (H := AsciiHost.host) "name" loaded) as (Hk & _ & Hnew & _).
  destruct (headerClick_sort (H := AsciiHost.host) "name" (headerClick "name" loaded))
    as (_ & Hsame & _).
  split; [exact Hk |].
  split; [apply Hnew; discriminate |].
  rewrite (Hsame Hk). rewrite (Hnew ltac:(discriminate)). reflexivity.
Defined.

(** C9 at a store with the scenario records: after the pipeline the record
    set at location 10 still holds its two references in their order, and
    the result is another array. *)
Lemma filter_sort_frame_witness :
  is_Some (Store.arrays heap !! 10%positive) /\
  Store.arrays (snd (Store.pipeline controls_installed "score" false 10%positive heap))
    !! 10%positive = Some [2%positive; 1%positive] /\
  10%positive <> fst (Store.pipeline controls_installed "score" false 10%positive heap).
Proof.
  assert (Hsome : is_Some (Store.arrays heap !! 10%positive))
    by (exists [2%positive; 1%positive]; reflexivity).
  destruct (filter_sort_frame (H := AsciiHost.host) controls_installed "score" false
              10%positive heap) as (_ & _ & _ & Hold).
  destruct (Hold 10%positive Hsome) as [Hsame Hother].
  split; [exact Hsome |]. split; [| exact Hother].
  etransitivity; [exact Hsame | reflexivity].
Defined.

(** C10 at the scenario: a row click that carries a name no record has. *)
Lemma showDetail_unknown_witness :
  (forall m, In m (allModels (vars loaded)) -> name m <> "zzz") /\
  showDetail "zzz" loaded = set_selectedModel (Some "zzz") loaded /\
  table (showDetail "zzz" loaded) = table loaded.
Proof.
  assert (Hnone : forall m, In m (allModels (vars loaded)) -> name m <> "zzz").
  { intros m Hin. vm_compute in Hin.
    destruct Hin as [<- | [<- | []]]; discriminate. }
  destruct (showDetail_unknown (H := AsciiHost.host) "zzz" loaded Hnone)
    as (Heq & _ & _ & Htable & _).
  split; [exact Hnone |]. split; [exact Heq | exact Htable].
Defined.

(** After such a click the table still marks the row that was selected
    before, although the selection key has moved on. *)
Example stale_highlight :
  let p := showDetail "zzz" (showDetail "a/x" loaded) in
  selectedModel (vars p) = Some "zzz" /\
  includes (model_tbody (table p)) "model-row selected" = true /\
  includes (model_tbody (table (renderTable p))) "model-row selected" = false.
Proof. repeat split; vm_compute; reflexivity. Qed.

End Scenario.

(** * Further properties *)

From Stdlib Require Import FloatAxioms.

(** ** Numbers: order facts of binary64 *)

Module FloatFacts.

Import Num.

Lemma SFcompare_antisym x y :
  SFcompare y x = option_map CompOpp (SFcompare x y).
Proof.
  destruct x as [sx | sx | | sx mx ex], y as [sy | sy | | sy my ey];
    try reflexivity;
    try (destruct sx; reflexivity); try (destruct sy; reflexivity);
    try (destruct sx, sy; reflexivity).
  simpl. f_equal.
  change (Pos.compare_cont Eq my mx) with (Pos.compare my mx).
  change (Pos.compare_cont Eq mx my) with (Pos.compare mx my).
  rewrite (Z.compare_antisym ex ey), (Pos.compare_antisym mx my).
  destruct sx, sy; try reflexivity;
    destruct (ex ?= ey)%Z; simpl; try reflexivity.
Qed.

Lemma ltb_leb a b : (a <? b)%float = true -> (a <=? b)%float = true.
Proof.
  rewrite FloatAxioms.ltb_spec, FloatAxioms.leb_spec. unfold SFltb, SFleb.
  destruct (SFcompare _ _) as [[] |]; congruence.
Qed.

Lemma ltb_asym a b : (a <? b)%float = true -> (b <? a)%float = false.
Proof.
  rewrite !FloatAxioms.ltb_spec. unfold SFltb.
  rewrite (SFcompare_antisym (Prim2SF a) (Prim2SF b)).
  destruct (SFcompare _ _) as [[] |]; simpl; congruence.
Qed.

Lemma eqb_leb_sym a b : (a =? b)%float = true -> (b <=? a)%float = true.
Proof.
  rewrite FloatAxioms.eqb_spec, FloatAxioms.leb_spec. unfold SFeqb, SFleb.
  rewrite (SFcompare_antisym (Prim2SF a) (Prim2SF b)).
  destruct (SFcompare _ _) as [[] |]; simpl; congruence.
Qed.

Lemma eqb_leb a b : (a =? b)%float = true -> (a <=? b)%float = true.
Proof.
  rewrite FloatAxioms.eqb_spec, FloatAxioms.leb_spec. unfold SFeqb, SFleb.
  destruct (SFcompare _ _) as [[] |]; congruence.
Qed.

Lemma is_nan_Prim2SF a : is_nan a = true <-> Prim2SF a = S754_nan.
Proof.
  unfold is_nan. rewrite negb_true_iff, FloatAxioms.eqb_spec. unfold SFeqb.
  destruct (Prim2SF a) as [s | s | | s m e]; simpl.
  - split; discriminate.
  - destruct s; split; discriminate.
  - split; reflexivity.
  - destruct s; rewrite Z.compare_refl, Pos.compare_cont_refl; split; discriminate.
Qed.

(** A NaN is neither below, above nor equal to anything. *)
Lemma nan_unordered a b :
  is_nan a = true ->
  (a <? b)%float = false /\ (b <? a)%float = false /\
  (a =? b)%float = false /\ (b =? a)%float = false.
Proof.
  intros Ha. apply is_nan_Prim2SF in Ha.
  rewrite !FloatAxioms.ltb_spec, !FloatAxioms.eqb_spec. unfold SFltb, SFeqb. rewrite Ha.
  repeat split; simpl; try reflexivity; destruct (Prim2SF b); reflexivity.
Qed.

(** Two numbers that are neither below, above nor equal to each other:
    one of them is NaN. *)
Lemma unordered_nan a b :
  (a <? b)%float = false -> (b <? a)%float = false -> (a =? b)%float = false ->
  is_nan a = true \/ is_nan b = true.
Proof.
  rewrite !FloatAxioms.ltb_spec, FloatAxioms.eqb_spec, !is_nan_Prim2SF. unfold SFltb, SFeqb.
  rewrite (SFcompare_antisym (Prim2SF a) (Prim2SF b)).
  destruct (Prim2SF a) as [s | s | | s m e] eqn:Ea; [| | now left |];
  (destruct (Prim2SF b) as [s' | s' | | s' m' e'] eqn:Eb; [| | now right |]);
  destruct (SFcompare _ _) as [[] |] eqn:Ec; simpl; try congruence;
  simpl in Ec; discriminate Ec.
Qed.

(** [Math.max(0, y)] for a number [y]: [y] itself when it is above zero,
    zero otherwise. *)
Lemma Math_max_0 y :
  is_nan y = false ->
  (Math_max 0 y = y /\ (0 <? y)%float = true) \/ Math_max 0 y = 0%float.
Proof.
  intros N. unfold Math_max.
  destruct (0 <? y)%float eqn:C; [now left | right].
  destruct (y <? 0)%float eqn:D; [reflexivity |].
  destruct (0 =? y)%float eqn:E; [reflexivity |].
  destruct (unordered_nan 0 y C D E) as [N0 | Ny]; [discriminate N0 | congruence].
Qed.

(** [Math.min(100, x)] for a number [x]: 100 when [x] is above 100, [x]
    otherwise. *)
Lemma Math_min_100 x :
  is_nan x = false ->
  Math_min 100 x = 100%float \/
  (Math_min 100 x = x /\ (x <=? 100)%float = true).
Proof.
  intros N. unfold Math_min.
  destruct (100 <? x)%float eqn:A; [now left |].
  destruct (x <? 100)%float eqn:B; [right; split; [reflexivity | now apply ltb_leb] |].
  destruct (100 =? x)%float eqn:E.
  - right. split; [reflexivity | now apply eqb_leb_sym].
  - destruct (unordered_nan 100 x A B E) as [N0 | Nx]; [discriminate N0 | congruence].
Qed.

(** [Math.min(u, 100)] for a number [u]: at most 100, and [u] itself when
    [u] is below 100. *)
Lemma Math_min_cap u :
  is_nan u = false ->
  (Math_min u 100 <=? 100)%float = true.
Proof.
  intros N. unfold Math_min.
  destruct (u <? 100)%float eqn:A; [now apply ltb_leb |].
  destruct (100 <? u)%float eqn:B; [reflexivity |].
  destruct (u =? 100)%float eqn:E;
    [destruct (is_zero u && get_sign u); [now apply eqb_leb | reflexivity] |].
  destruct (unordered_nan u 100 A B E) as [Nu | N0]; [congruence | discriminate N0].
Qed.

Lemma Math_min_nan_l u b : is_nan u = true -> Math_min u b = nan.
Proof.
  intros N. destruct (nan_unordered u b N) as (A & B & E & _).
  unfold Math_min. now rewrite A, B, E.
Qed.

Lemma Math_min_nan_r a u : is_nan u = true -> Math_min a u = nan.
Proof.
  intros N. destruct (nan_unordered u a N) as (A & B & _ & E).
  unfold Math_min. now rewrite A, B, E.
Qed.

End FloatFacts.

(** ** The bars of the detail panel *)

Section Bars.

Context `{Platform}.

Import Text Num Spec TextFacts FloatFacts.

(** Finds consecutive pieces of a template by the position of the first. *)
Ltac locate l k a :=
  lazymatch l with
  | a :: _ => constr:(k)
  | _ :: ?t => locate t (S k) a
  end.

Ltac adjacent :=
  lazymatch goal with
  | |- Substring (cat (?a :: ?rest)) (cat ?l) =>
      let k := locate l O a in
      let n := constr:(length (a :: rest)) in
      exact (Substring_sublist k n l)
  end.

(** X1.  [scoreBar]: whatever the sub-score, the width of the bar is a
    percentage between 0 and 100; only a score whose share of 30 is not
    a number gives the width NaN. *)
Theorem scoreBar_width_clamped label value cls :
  let x := (value / 30 * 100)%float in
  let pct := Math_max 0 (Math_min 100 x) in
  Substring (cat [ "width: "; Number_toString pct; "%" ]) (scoreBar label value cls) /\
  (if is_nan x then is_nan pct = true
   else (0 <=? pct)%float = true /\ (pct <=? 100)%float = true).
Proof.
  intros x pct. split; [unfold scoreBar; adjacent |].
  subst pct. destruct (is_nan x) eqn:N.
  - now rewrite (Math_min_nan_r 100 x N).
  - destruct (Math_min_100 x N) as [-> | [-> Hx]].
    + split; reflexivity.
    + destruct (Math_max_0 x N) as [[-> Hpos] | ->].
      * split; [now apply ltb_leb | exact Hx].
      * split; reflexivity.
Qed.

(** X2.  The memory bar of the detail panel: its width is never above 100,
    and it is the utilization itself whenever that is below 100; the label
    beside it prints the utilization as it is.  (A utilization that is not
    a number gives the width NaN.) *)
Theorem detail_bar_capped m :
  let u := utilization_pct m in
  let w := Math_min u 100 in
  Substring (cat [ "width: "; Number_toString w; "%" ]) (detailMarkup m) /\
  Substring (cat [ "<span>"; toFixed u 1; "%</span>" ]) (detailMarkup m) /\
  (if is_nan u then is_nan w = true
   else (w <=? 100)%float = true /\ ((u <? 100)%float = true -> w = u)).
Proof.
  intros u w. destruct (detail_bar_and_label m) as [Hbar Hlabel].
  split; [exact Hbar |]. split; [exact Hlabel |].
  subst w. destruct (is_nan u) eqn:N.
  - now rewrite (Math_min_nan_l u 100 N).
  - split; [now apply Math_min_cap | apply Math_min_below].
Qed.

End Bars.

(** ** Text helpers *)

Module TextMore.

Import Text Spec TextFacts Escaped.

Lemma includes_char_In t c : includes t (String c "") = true -> In c (chars t).
Proof.
  rewrite includes_spec. intros [pre [post ->]].
  rewrite !chars_app, !in_app_iff. right. left. simpl. now left.
Qed.

(** X3.  [escapeHtml]: the result holds neither a less-than nor a
    greater-than sign, whatever the text. *)
Theorem escapeHtml_no_tags str :
  includes (escapeHtml str) "<" = false /\ includes (escapeHtml str) ">" = false.
Proof.
  split.
  - destruct (includes (escapeHtml str) "<") eqn:E; [| reflexivity].
    apply includes_char_In, escapeHtml_no_angle in E. now destruct E as [E _].
  - destruct (includes (escapeHtml str) ">") eqn:E; [| reflexivity].
    apply includes_char_In, escapeHtml_no_angle in E. now destruct E as [_ E].
Qed.

(** Where an ampersand stands in a text that starts with [w], and [w] has
    none, it stands after [w]. *)
Lemma amp_after w R pre post :
  ~ In "&"%char (chars w) ->
  pre +:+ "&" +:+ post = w +:+ R ->
  exists pre', pre = w +:+ pre' /\ pre' +:+ "&" +:+ post = R.
Proof.
  revert pre. induction w as [|a w IH]; intros pre Hno E.
  - exists pre. split; [reflexivity | exact E].
  - destruct pre as [|p pre].
    + rewrite append_nil_l, !append_cons in E. injection E as Ea _.
      exfalso. apply Hno. simpl. now left.
    + rewrite !append_cons in E. injection E as -> E.
      destruct (IH pre) as [pre' [-> E']]; [| exact E |].
      * intros Hin. apply Hno. simpl. now right.
      * exists pre'. split; [now rewrite append_cons | exact E'].
Qed.

(** The shape of one step of [escapeHtml]. *)
Lemma escapeHtml_step c rest :
  (exists w tail, escapeHtml (String c rest) = String "&" (w +:+ escapeHtml tail) /\
                  (String.length tail <= String.length rest)%nat /\
                  ~ In "&"%char (chars w) /\
                  (forall R, reference_follows (w +:+ R))) \/
  (c <> "&"%char /\
   (escapeHtml (String c rest) = String c (escapeHtml rest) \/
    (rest = "" /\ escapeHtml (String c rest) = String c ""))).
Proof.
  assert (Hamp : forall w, In "&"%char (chars w) ->
                           w = "amp;" \/ w = "lt;" \/ w = "gt;" \/ w = "nbsp;" -> False).
  { intros w Hin [-> | [-> | [-> | ->]]]; simpl in Hin; intuition discriminate. }
  cbn [escapeHtml].
  destruct (Ascii.eqb_spec c "&").
  { left. exists "amp;", rest. split; [reflexivity |]. split; [lia |].
    split; [intros Hin; apply (Hamp _ Hin); tauto | intros R; left; apply startsWith_spec; now exists R]. }
  destruct (Ascii.eqb_spec c "<").
  { left. exists "lt;", rest. split; [reflexivity |]. split; [lia |].
    split; [intros Hin; apply (Hamp _ Hin); tauto
           | intros R; right; left; apply startsWith_spec; now exists R]. }
  destruct (Ascii.eqb_spec c ">").
  { left. exists "gt;", rest. split; [reflexivity |]. split; [lia |].
    split; [intros Hin; apply (Hamp _ Hin); tauto
           | intros R; right; right; left; apply startsWith_spec; now exists R]. }
  destruct (Ascii.eqb c (ascii_of_nat 194)).
  - destruct rest as [|d rest'].
    + right. split; [assumption |]. right. now split.
    + destruct (Ascii.eqb d (ascii_of_nat 160)).
      * left. exists "nbsp;", rest'. split; [reflexivity |].
        split; [simpl; lia |].
        split; [intros Hin; apply (Hamp _ Hin); tauto
               | intros R; right; right; right; apply startsWith_spec; now exists R].
      * right. split; [assumption |]. now left.
  - right. split; [assumption |]. now left.
Qed.

(** X4.  [escapeHtml]: every ampersand of the result starts one of the
    references the function writes ([&amp;], [&lt;], [&gt;], [&nbsp;]). *)
Theorem escapeHtml_ampersands str pre post :
  escapeHtml str = pre +:+ "&" +:+ post -> reference_follows post.
Proof.
  remember (String.length str) as n eqn:Hn.
  revert str Hn pre post. induction n as [n IH] using lt_wf_ind.
  intros str Hn pre post E.
  destruct str as [|c rest].
  { destruct pre; discriminate E. }
  destruct (escapeHtml_step c rest)
    as [(w & tail & Eout & Hlen & Hno & Href) | [Hc [Eout | [-> Eout]]]];
    rewrite Eout in E.
  - destruct pre as [|p pre].
    + rewrite append_nil_l, append_cons, append_nil_l in E.
      injection E as <-. apply Href.
    + rewrite append_cons in E. injection E as _ E.
      destruct (amp_after w _ pre post Hno (eq_sym E)) as [pre' [_ E']].
      apply (IH (String.length tail)) with (str := tail) (pre := pre');
        [subst n; simpl; lia | reflexivity | now symmetry].
  - destruct pre as [|p pre].
    + rewrite append_nil_l, append_cons in E. injection E as Ec _. congruence.
    + rewrite append_cons in E. injection E as _ E.
      apply (IH (String.length rest)) with (str := rest) (pre := pre);
        [subst n; simpl; lia | reflexivity | exact E].
  - destruct pre as [|p pre].
    + rewrite append_nil_l, append_cons in E. injection E as Ec _. congruence.
    + rewrite append_cons in E. injection E as _ E. destruct pre; discriminate E.
Qed.

(** A text without a given character, one character shorter. *)
Lemma includes_cons_false c rest s :
  includes (String c rest) s = false ->
  startsWith (String c rest) s = false /\ includes rest s = false.
Proof. cbn [includes]. now rewrite orb_false_iff. Qed.

(** X5.  [escapeHtml] returns a text unchanged when it holds no ampersand,
    no less-than or greater-than sign and no no-break space. *)
Theorem escapeHtml_plain str :
  includes str "&" = false -> includes str "<" = false ->
  includes str ">" = false -> includes str nbsp = false ->
  escapeHtml str = str.
Proof.
  induction str as [|c rest IH]; [reflexivity |].
  intros Ha Hl Hg Hn.
  apply includes_cons_false in Ha as [Ha Ha'], Hl as [Hl Hl'],
    Hg as [Hg Hg'], Hn as [Hn Hn'].
  specialize (IH Ha' Hl' Hg' Hn').
  cbn [startsWith] in Ha, Hl, Hg.
  assert (Hstart : forall a, Ascii.eqb a c && startsWith rest "" = false ->
                             Ascii.eqb c a = false).
  { intros a Hs. destruct rest; simpl in Hs; rewrite andb_true_r in Hs;
      now rewrite Ascii.eqb_sym. }
  cbn [escapeHtml].
  rewrite (Hstart _ Ha), (Hstart _ Hl), (Hstart _ Hg).
  destruct (Ascii.eqb c (ascii_of_nat 194)) eqn:E194; [| now rewrite IH].
  destruct rest as [|d rest']; [reflexivity |].
  apply Ascii.eqb_eq in E194. subst c.
  destruct (Ascii.eqb d (ascii_of_nat 160)) eqn:E160.
  - apply Ascii.eqb_eq in E160. subst d.
    destruct rest'; discriminate Hn.
  - now rewrite IH.
Qed.

(** [split] never returns the empty list. *)
Lemma split_nonempty sep s : split sep s <> [].
Proof.
  destruct s as [|c s]; simpl; [discriminate |].
  destruct (Ascii.eqb c sep); [discriminate |].
  destruct (split sep s); discriminate.
Qed.

(** Joining what [split] returned gives the text back. *)
Lemma join_split sep s : join (String sep "") (split sep s) = s.
Proof.
  induction s as [|c s IH]; [reflexivity |].
  cbn [split]. destruct (Ascii.eqb_spec c sep) as [-> | Hc].
  - destruct (split sep s) as [|h t] eqn:E; [now apply split_nonempty in E |].
    cbn [join]. rewrite append_nil_l. cbn [join] in IH.
    rewrite append_cons, append_nil_l. now rewrite IH.
  - destruct (split sep s) as [|h t] eqn:E; [now apply split_nonempty in E |].
    destruct t as [|h' t].
    + cbn [join] in *. now rewrite IH.
    + cbn [join] in *. rewrite append_cons. now rewrite IH.
Qed.

(** No piece that [split] returns holds the separator. *)
Lemma split_pieces sep s :
  Forall (fun piece => ~ In sep (chars piece)) (split sep s).
Proof.
  induction s as [|c s IH]; [repeat constructor; simpl; tauto |].
  cbn [split]. destruct (Ascii.eqb_spec c sep) as [-> | Hc].
  - constructor; [simpl; tauto | exact IH].
  - destruct (split sep s) as [|h t]; [repeat constructor; simpl; intuition |].
    inversion IH as [| ? ? Hh Ht]; subst.
    constructor; [simpl; intuition congruence | exact Ht].
Qed.

(** A joined non-empty list ends with its last piece. *)
Lemma join_last sep l d :
  l <> [] ->
  join sep l = List.last l d \/
  exists pre, join sep l = pre +:+ sep +:+ List.last l d.
Proof.
  induction l as [|x l IH]; [congruence |]. intros _.
  destruct l as [|y l]; [now left |].
  right. destruct IH as [E | [pre E]]; [discriminate | |].
  - exists x. cbn [join]. cbn [join] in E. rewrite E. reflexivity.
  - exists (x +:+ sep +:+ pre). cbn [join]. cbn [join] in E. rewrite E.
    now rewrite !append_assoc.
Qed.

(** X6.  [name.split('/').pop()]: the result holds no slash, and the name
    is either the result itself or ends with a slash followed by the
    result.  So the result is what follows the last slash, the whole name
    when there is none, and nothing when the name ends with a slash. *)
Theorem split_slash_pop_spec s :
  includes (split_slash_pop s) "/" = false /\
  (s = split_slash_pop s \/ exists pre, s = pre +:+ "/" +:+ split_slash_pop s).
Proof.
  unfold split_slash_pop. split.
  - destruct (includes _ "/") eqn:E; [| reflexivity].
    apply includes_char_In in E. exfalso.
    pose proof (split_pieces "/"%char s) as HF.
    rewrite List.Forall_forall in HF. apply (HF (List.last (split "/" s) "")); [| exact E].
    destruct (exists_last (split_nonempty "/"%char s)) as (l' & a & ->).
    rewrite last_last. apply in_or_app. right. now left.
  - pose proof (join_last "/" (split "/" s) "" (split_nonempty "/"%char s)) as J.
    rewrite (join_split "/"%char s) in J. exact J.
Qed.

End TextMore.

(** ** Rendering and sorting *)

Section Rendering.

Context `{Platform}.

Import Text Num Spec TextFacts SortFacts.

(** A comparator that never says "after" leaves the order alone. *)
Lemma Array_sort_fixed {A} (cmp : A -> A -> float) l :
  (forall x y, (0 <? cmp x y)%float = false) -> Array_sort cmp l = l.
Proof.
  intros Hcmp. induction l as [|x l IH]; [reflexivity |].
  unfold Array_sort in *. cbn [fold_right]. rewrite IH.
  destruct l as [|y l]; [reflexivity |]. cbn [sort_insert]. now rewrite Hcmp.
Qed.

(** X7.  Sorting by a key that is no property of the records (the
    comparator then subtracts [undefined] from [undefined]) leaves the
    records in the order they had, in either direction. *)
Theorem sortModels_unknown_key p l :
  property (sortKey (vars p)) = PMissing -> sortModels p l = l.
Proof.
  intros E. unfold sortModels. apply Array_sort_fixed.
  intros x y. unfold comparator. rewrite E. now destruct (sortAsc (vars p)).
Qed.

(** X8.  [sortModels] returns a rearrangement of its argument: every
    record as often as it was there, none added. *)
Theorem sortModels_permutation p l : sortModels p l ≡ₚ l.
Proof. unfold sortModels. apply Array_sort_perm. Qed.

(** Inserting into a list that is already split by a flag. *)
Lemma sort_insert_partition (asc : bool) x (front back : list ModelFit) :
  Forall (fun m => installed m = negb asc) front ->
  Forall (fun m => installed m = asc) back ->
  sort_insert (comparator "installed" asc) x (front ++ back)%list =
  if Bool.eqb (installed x) (negb asc) then (x :: front ++ back)%list
  else (front ++ x :: back)%list.
Proof.
  intros Hfront Hback. induction Hfront as [|y front Hy Hfront IH].
  - cbn [app]. destruct Hback as [|y back Hy Hback];
      [now destruct (Bool.eqb _ _) |].
    cbn [sort_insert]. unfold comparator at 1. cbn [property String.eqb].
    simpl. rewrite Hy. now destruct (installed x), asc.
  - cbn [app sort_insert]. unfold comparator at 1. simpl. rewrite Hy, IH.
    now destruct (installed x), asc.
Qed.

(** X9.  Sorting by the installed flag splits the list and keeps the
    order inside each half: descending puts the installed records first,
    ascending the others. *)
Theorem sort_by_installed asc l :
  Array_sort (comparator "installed" asc) l =
  (List.filter (fun m => Bool.eqb (installed m) (negb asc)) l ++
   List.filter (fun m => Bool.eqb (installed m) asc) l)%list.
Proof.
  induction l as [|x l IH]; [reflexivity |].
  unfold Array_sort in *. cbn [fold_right]. rewrite IH.
  rewrite sort_insert_partition.
  - cbn [List.filter]. now destruct (installed x), asc.
  - apply List.Forall_forall. intros m Hm. apply filter_In in Hm as [_ Hm].
    now apply Bool.eqb_prop.
  - apply List.Forall_forall. intros m Hm. apply filter_In in Hm as [_ Hm].
    now apply Bool.eqb_prop.
Qed.

(** The markup of a row starts with a line feed: it is never empty. *)
Lemma rowMarkup_cons sel m : exists rest, rowMarkup sel m = String (ascii_of_nat 10) rest.
Proof. unfold rowMarkup. eexists. reflexivity. Qed.

(** X10.  The table body is empty exactly when no record passes the
    filters (the first variant has no placeholder row for that); the count
    then reads "0 of N models". *)
Theorem renderTable_empty p :
  (model_tbody (table (renderTable p)) = "" <-> getFilteredModels p = []) /\
  (getFilteredModels p = [] ->
   model_count (table (renderTable p)) =
     cat [ "0 of "; of_nat (length (allModels (vars p))); " models" ]).
Proof.
  unfold renderTable. cbn [table set_table model_tbody model_count].
  split; [split |].
  - intros E. destruct (sortModels p (getFilteredModels p)) as [|m l] eqn:Es.
    + apply (f_equal (@length _)) in Es. unfold sortModels in Es.
      rewrite Array_sort_length in Es. now destruct (getFilteredModels p).
    + exfalso. cbn [List.map join_empty cat fold_right] in E.
      destruct (rowMarkup_cons (selectedModel (vars p)) m) as [rest Er].
      rewrite Er in E. discriminate E.
  - intros ->. reflexivity.
  - intros ->. reflexivity.
Qed.

End Rendering.

(** ** The order of the sorted records *)

Module SubFacts.





End SubFacts.

Section Ordering.

Context `{Platform}.

Import Text Num SubFacts.






End Ordering.

Module SortScenario.

Import Text Num Sample.



End SortScenario.

(** ** Column headers and the notes section *)

Section Headers.

Context `{Platform}.

Import Text Num Spec TextFacts.

Lemma contains_remove ts cl u :
  ClassList.contains (ClassList.remove ts cl) u =
  ClassList.contains cl u && negb (ClassList.contains ts u).
Proof.
  apply Bool.eq_iff_eq_true.
  rewrite andb_true_iff, negb_true_iff, !contains_In.
  unfold ClassList.remove. now rewrite filter_In, negb_true_iff.
Qed.

Lemma contains_add ts cl u :
  ClassList.contains (ClassList.add ts cl) u =
  ClassList.contains cl u || ClassList.contains ts u.
Proof.
  unfold ClassList.add. revert cl. induction ts as [|t ts IH]; intros cl.
  - simpl. now rewrite orb_false_r.
  - cbn [fold_left]. rewrite IH, contains_add1.
    unfold ClassList.contains at 4. cbn [existsb]. now rewrite orb_assoc.
Qed.

(** The class lists after the two [classList] calls of the handler. *)
Lemma marked_headers (th : gmap string (list string)) key (asc : bool) :
  let dir := if asc then "asc" else "desc" in
  let other := if asc then "desc" else "asc" in
  let cleared := ClassList.remove ["sorted"; "asc"; "desc"] <$> th in
  let th' := <[key := ClassList.add ["sorted"; dir] (default [] (cleared !! key))]>
               cleared in
  (exists cl, th' !! key = Some cl /\
     ClassList.contains cl "sorted" = true /\
     ClassList.contains cl dir = true /\
     ClassList.contains cl other = false) /\
  (forall k cl, k <> key -> th' !! k = Some cl ->
     ClassList.contains cl "sorted" = false /\
     ClassList.contains cl "asc" = false /\
     ClassList.contains cl "desc" = false) /\
  (forall k cl0 u, th !! k = Some cl0 ->
     u <> "sorted" -> u <> "asc" -> u <> "desc" ->
     exists cl, th' !! k = Some cl /\
                ClassList.contains cl u = ClassList.contains cl0 u).
Proof.
  intros dir other cleared th'. subst th'. split; [| split].
  - eexists. split; [apply lookup_insert_eq |].
    rewrite !contains_add. subst dir other cleared. rewrite lookup_fmap.
    destruct (th !! key) as [cl0 |]; cbn [fmap option_fmap option_map default id];
      [rewrite !contains_remove |];
      destruct asc; simpl; rewrite ?andb_false_r, ?orb_true_r; auto.
  - intros k cl Hk. rewrite lookup_insert_ne by congruence.
    subst cleared. rewrite lookup_fmap.
    destruct (th !! k) as [cl0 |]; [| discriminate].
    cbn [fmap option_fmap option_map]. intros [= <-].
    rewrite !contains_remove. simpl. now rewrite !andb_false_r.
  - intros k cl0 u Hk Hs Ha Hd.
    assert (Hu : ClassList.contains ["sorted"; "asc"; "desc"] u = false).
    { unfold ClassList.contains. cbn [existsb].
      destruct (String.eqb_spec u "sorted"), (String.eqb_spec u "asc"),
        (String.eqb_spec u "desc"); simpl; congruence. }
    assert (Hdir : ClassList.contains ["sorted"; dir] u = false).
    { unfold ClassList.contains. cbn [existsb]. subst dir.
      destruct asc;
      destruct (String.eqb_spec u "sorted"), (String.eqb_spec u "asc"),
        (String.eqb_spec u "desc"); simpl; congruence. }
    destruct (string_dec k key) as [-> | Hne].
    + eexists. split; [apply lookup_insert_eq |].
      rewrite contains_add, Hdir, orb_false_r. subst cleared.
      rewrite lookup_fmap, Hk. cbn [fmap option_fmap option_map default id].
      now rewrite contains_remove, Hu, andb_true_r.
    + exists (ClassList.remove ["sorted"; "asc"; "desc"] cl0). split.
      * rewrite lookup_insert_ne by congruence. subst cleared.
        now rewrite lookup_fmap, Hk.
      * now rewrite contains_remove, Hu, andb_true_r.
Qed.

(** X11.  After a click on the header of [key]: that header carries
    [sorted] and the class of the new direction, and not the class of the
    other direction; no other header carries [sorted], [asc] or [desc];
    and every other class of every header is as it was. *)
Theorem headerClick_marks key p :
  let p' := headerClick key p in
  let dir := if sortAsc (vars p') then "asc" else "desc" in
  let other := if sortAsc (vars p') then "desc" else "asc" in
  (exists cl, th_classes (table p') !! key = Some cl /\
     ClassList.contains cl "sorted" = true /\
     ClassList.contains cl dir = true /\
     ClassList.contains cl other = false) /\
  (forall k cl, k <> key -> th_classes (table p') !! k = Some cl ->
     ClassList.contains cl "sorted" = false /\
     ClassList.contains cl "asc" = false /\
     ClassList.contains cl "desc" = false) /\
  (forall k cl0 u, th_classes (table p) !! k = Some cl0 ->
     u <> "sorted" -> u <> "asc" -> u <> "desc" ->
     exists cl, th_classes (table p') !! k = Some cl /\
                ClassList.contains cl u = ClassList.contains cl0 u).
Proof.
  intros p' dir other.
  pose proof (marked_headers (th_classes (table p)) key (sortAsc (vars p'))) as M.
  cbv zeta in M.
  assert (Hth : th_classes (table p') =
    <[key := ClassList.add ["sorted"; dir]
               (default [] ((ClassList.remove ["sorted"; "asc"; "desc"] <$>
                               th_classes (table p)) !! key))]>
      (ClassList.remove ["sorted"; "asc"; "desc"] <$> th_classes (table p))).
  { subst dir p'. unfold headerClick.
    destruct (String.eqb (sortKey (vars p)) key); reflexivity. }
  rewrite Hth. exact M.
Qed.

(** Finds one piece of a template by its position. *)
Ltac locate l k a :=
  lazymatch l with
  | a :: _ => constr:(k)
  | _ :: ?t => locate t (S k) a
  end.

Ltac one_piece :=
  lazymatch goal with
  | |- Substring ?a (cat ?l) =>
      let k := locate l O a in exact (Substring_nth k l a eq_refl)
  end.

(** X12.  The notes section of the detail panel: a record without notes
    gets no section at all; otherwise the section has the heading
    and, for every note, a [div] that holds the escaped note. *)
Theorem notesSection_spec m :
  (notes m = [] -> notesSection m = "") /\
  (notes m <> [] ->
   Substring "<h3>Notes</h3>" (notesSection m) /\
   forall n, In n (notes m) ->
     Substring (cat [ "<div class="; dq; "note"; dq; ">"; escapeHtml n; "</div>" ])
       (notesSection m)).
Proof.
  unfold notesSection. split; [now intros -> |].
  destruct (notes m) as [|n0 l] eqn:E; [congruence |]. intros _. split.
  - apply Substring_trans with "        <h3>Notes</h3>"; [| one_piece].
    exists "        ", "". now rewrite append_nil_r.
  - intros n Hn.
    apply Substring_trans with (join_empty (List.map noteDiv (n0 :: l)));
      [| one_piece].
    apply Substring_cat. change (cat _) with (noteDiv n). now apply in_map.
Qed.

End Headers.

(** ** Events *)

Section Events.

Context `{Platform}.

Import Text Num Spec View TextFacts.

Lemma known_find n p :
  known n p ->
  exists m, List.find (fun m => String.eqb (name m) n) (allModels (vars p)) = Some m.
Proof.
  intros (m & Hin & Hname).
  destruct (List.find _ _) as [m' |] eqn:E; [now exists m' |].
  apply (find_none _ _ E) in Hin. apply String.eqb_neq in Hin. contradiction.
Qed.

Lemma showDetail_frame n p :
  allModels (vars (showDetail n p)) = allModels (vars p) /\
  sortKey (vars (showDetail n p)) = sortKey (vars p) /\
  sortAsc (vars (showDetail n p)) = sortAsc (vars p) /\
  controls (showDetail n p) = controls p.
Proof. unfold showDetail. destruct (List.find _ _); repeat split. Qed.

Lemma keydown_frame key p :
  allModels (vars (keydown key p)) = allModels (vars p) /\
  sortKey (vars (keydown key p)) = sortKey (vars p) /\
  sortAsc (vars (keydown key p)) = sortAsc (vars p) /\
  controls (keydown key p) = controls p.
Proof. unfold keydown. destruct (_ && _); repeat split. Qed.

Lemma headerClick_frame key p :
  allModels (vars (headerClick key p)) = allModels (vars p) /\
  selectedModel (vars (headerClick key p)) = selectedModel (vars p) /\
  controls (headerClick key p) = controls p /\
  detail (headerClick key p) = detail p.
Proof. unfold headerClick. destruct (String.eqb _ _); repeat split. Qed.

(** X13.  Selection survives filtering and sorting: an input on one of
    the four filter controls or a click on a column header leaves the
    selection key and the detail panel as they were. *)
Theorem selection_survives_filtering e p :
  (exists t, e = SearchInput t) \/ (exists v, e = FitFilterChange v) \/
  (exists v, e = CategoryFilterChange v) \/ (exists b, e = InstalledChange b) \/
  (exists k, e = HeaderClick k) ->
  selectedModel (vars (handle e p)) = selectedModel (vars p) /\
  detail (handle e p) = detail p.
Proof.
  intros [[t ->] | [[v ->] | [[v ->] | [[b ->] | [k ->]]]]]; cbn [handle];
    try (split; reflexivity).
  destruct (headerClick_frame k p) as (_ & Hs & _ & Hd). now split.
Qed.

(** X14.  What an event can change.  The record set changes only when
    [get_model_fits] resolves; the sort key and direction only on a header
    click; the filter controls only on their own input events.  In
    particular a refresh keeps filters and sort order. *)
Theorem state_changes e p :
  (allModels (vars (handle e p)) <> allModels (vars p) ->
   exists ms, e = ModelFitsSettled (Resolved ms)) /\
  (sortKey (vars (handle e p)) <> sortKey (vars p) \/
   sortAsc (vars (handle e p)) <> sortAsc (vars p) ->
   exists k, e = HeaderClick k) /\
  (controls (handle e p) <> controls p ->
   (exists t, e = SearchInput t) \/ (exists v, e = FitFilterChange v) \/
   (exists v, e = CategoryFilterChange v) \/ (exists b, e = InstalledChange b)) /\
  (selectedModel (vars (handle e p)) <> selectedModel (vars p) ->
   (exists n, e = RowClick n) \/ e = CloseClick \/ e = KeyDown "Escape").
Proof.
  split; [| split; [| split]].
  - intros Hne. destruct e as [t | v | v | b | n | | key | key | r | r];
      cbn [handle] in Hne; try (exfalso; apply Hne; reflexivity).
    + exfalso. apply Hne. apply showDetail_frame.
    + exfalso. apply Hne. apply keydown_frame.
    + exfalso. apply Hne. apply headerClick_frame.
    + destruct r; exfalso; apply Hne; reflexivity.
    + destruct r as [ms | err]; [now exists ms | exfalso; apply Hne; reflexivity].
  - intros Hne. destruct e as [t | v | v | b | n | | key | key | r | r];
      cbn [handle] in Hne; try (exfalso; destruct Hne as [Hne | Hne]; apply Hne; reflexivity).
    + exfalso. destruct Hne as [Hne | Hne]; apply Hne; apply showDetail_frame.
    + exfalso. destruct Hne as [Hne | Hne]; apply Hne; apply keydown_frame.
    + now exists key.
    + destruct r; exfalso; destruct Hne as [Hne | Hne]; apply Hne; reflexivity.
    + destruct r; exfalso; destruct Hne as [Hne | Hne]; apply Hne; reflexivity.
  - intros Hne. destruct e as [t | v | v | b | n | | key | key | r | r];
      cbn [handle] in Hne; eauto 6; try (exfalso; apply Hne; reflexivity).
    + exfalso. apply Hne. apply showDetail_frame.
    + exfalso. apply Hne. apply keydown_frame.
    + exfalso. apply Hne. apply headerClick_frame.
    + destruct r; exfalso; apply Hne; reflexivity.
    + destruct r; exfalso; apply Hne; reflexivity.
  - intros Hne. destruct e as [t | v | v | b | n | | key | key | r | r];
      cbn [handle] in Hne; eauto; try (exfalso; apply Hne; reflexivity).
    + destruct (String.eqb_spec key "Escape") as [-> | Hkey]; [now right; right |].
      exfalso. apply Hne. unfold keydown.
      destruct (String.eqb_spec key "Escape"); [contradiction | reflexivity].
    + exfalso. apply Hne. apply headerClick_frame.
    + destruct r; exfalso; apply Hne; reflexivity.
    + destruct r; exfalso; apply Hne; reflexivity.
Qed.

(** A render shows its own result. *)
Lemma rendered_renderTable q : rendered (renderTable q).
Proof. split; reflexivity. Qed.

(** X15.  The table keeps up with the state: if the count and the rows on
    the page are what a render of the current state gives, they still are
    after any event, provided a row click carries the name of a record.
    (After a successful load they are, whatever was there before.) *)
Theorem rendered_kept e p :
  (forall n, e = RowClick n -> known n p) ->
  rendered p -> rendered (handle e p).
Proof.
  intros Hclick Hp.
  destruct e as [t | v | v | b | n | | key | key | r | r]; cbn [handle];
    try apply rendered_renderTable.
  - destruct (known_find n p (Hclick n eq_refl)) as [m Em].
    unfold showDetail. cbn [vars set_selectedModel set_vars allModels].
    rewrite Em. apply rendered_renderTable.
  - unfold keydown. destruct (_ && _); [apply rendered_renderTable | exact Hp].
  - destruct r; exact Hp.
  - destruct r; [apply rendered_renderTable | exact Hp].
Qed.

(** X16.  The selection key keeps naming a record of the record set under
    every event except a load that replaces the record set, provided a row
    click carries the name of a record. *)
Theorem selectionValid_kept e p :
  (forall ms, e <> ModelFitsSettled (Resolved ms)) ->
  (forall n, e = RowClick n -> known n p) ->
  selectionValid p -> selectionValid (handle e p).
Proof.
  intros Hload Hclick Hp.
  destruct e as [t | v | v | b | n | | key | key | r | r]; cbn [handle];
    try exact Hp.
  - destruct (known_find n p (Hclick n eq_refl)) as [m Em].
    unfold showDetail. cbn [vars set_selectedModel set_vars allModels].
    rewrite Em. intros k [= <-]. exact (Hclick n eq_refl).
  - intros k Hk. discriminate Hk.
  - unfold keydown. destruct (_ && _); [intros k Hk; discriminate Hk | exact Hp].
  - unfold selectionValid.
    destruct (headerClick_frame key p) as (-> & -> & _). exact Hp.
  - destruct r; exact Hp.
  - destruct r as [ms | err]; [now destruct (Hload ms) | exact Hp].
Qed.

(** X17.  A row click that carries the name of a record: the selection
    key becomes that name, the panel is shown and filled from a record of
    that name, the table is rendered for the new selection, and the
    selection key names a record. *)
Theorem rowClick_selects n p :
  known n p ->
  selectedModel (vars (showDetail n p)) = Some n /\
  panelShown (showDetail n p) /\
  (exists m, In m (allModels (vars p)) /\ name m = n /\
             detail_content (detail (showDetail n p)) = detailMarkup m) /\
  rendered (showDetail n p) /\
  selectionValid (showDetail n p).
Proof.
  intros Hknown. destruct (known_find n p Hknown) as [m Em].
  destruct (showDetail_known n p m Em) as (Hs & Hp & Hc).
  split; [exact Hs |]. split; [exact Hp |]. split; [| split].
  - exists m. apply find_some in Em as [Hin Hname].
    apply String.eqb_eq in Hname. now repeat split.
  - unfold showDetail. cbn [vars set_selectedModel set_vars allModels].
    rewrite Em. apply rendered_renderTable.
  - intros k Hk. rewrite Hs in Hk. injection Hk as <-.
    destruct (showDetail_frame n p) as (-> & _). exact Hknown.
Qed.

End Events.

(** ** Closing the panel, the keyboard, and the loads *)

Section Closing.

Context `{Platform}.

Import Text Num Spec View TextFacts.

Lemma add1_present cl t : ClassList.contains cl t = true -> ClassList.add1 cl t = cl.
Proof. intros E. unfold ClassList.add1. now rewrite E. Qed.

Lemma remove_kept ts cl :
  (forall u, In u cl -> ClassList.contains ts u = false) ->
  ClassList.remove ts cl = cl.
Proof.
  intros Hcl. unfold ClassList.remove. induction cl as [|x cl IH]; [reflexivity |].
  cbn [List.filter]. rewrite (Hcl x (or_introl eq_refl)). cbn [negb].
  rewrite IH; [reflexivity |]. intros u Hu. apply Hcl. now right.
Qed.

(** The class list of the panel after a close, closed again. *)
Lemma close_classes_idem cl :
  let closed := ClassList.add ["hidden"] (ClassList.remove ["visible"] cl) in
  ClassList.add ["hidden"] (ClassList.remove ["visible"] closed) = closed.
Proof.
  intros closed.
  assert (Hvis : forall u, In u closed -> ClassList.contains ["visible"] u = false).
  { intros u Hu. apply contains_In in Hu. subst closed.
    unfold ClassList.add in Hu. cbn [fold_left] in Hu.
    rewrite contains_add1, contains_remove1 in Hu.
    unfold ClassList.contains. cbn [existsb]. rewrite orb_false_r.
    destruct (String.eqb u "visible") eqn:E; [| reflexivity].
    apply String.eqb_eq in E. subst u.
    rewrite andb_false_r in Hu. discriminate Hu. }
  rewrite (remove_kept _ _ Hvis).
  unfold ClassList.add. cbn [fold_left]. apply add1_present.
  subst closed. unfold ClassList.add. cbn [fold_left].
  rewrite contains_add1. now rewrite orb_true_r.
Qed.

Lemma closeDetail_twice p : closeDetail (closeDetail p) = closeDetail p.
Proof.
  unfold closeDetail.
  cbn [renderTable set_table set_detail set_selectedModel set_vars vars detail
       detail_panel detail_content controls system table console allModels
       sortKey sortAsc selectedModel].
  rewrite close_classes_idem. reflexivity.
Qed.

(** X18.  The close control: the selection is cleared, the panel carries
    [hidden] and not [visible], the table is rendered without a selection,
    and a second close leaves the page exactly as the first left it. *)
Theorem closeDetail_closes p :
  selectedModel (vars (closeDetail p)) = None /\
  ClassList.contains (detail_panel (detail (closeDetail p))) "visible" = false /\
  ClassList.contains (detail_panel (detail (closeDetail p))) "hidden" = true /\
  rendered (closeDetail p) /\
  closeDetail (closeDetail p) = closeDetail p.
Proof.
  destruct (closeDetail_clears p) as (Hs & Hv & Hh).
  split; [exact Hs |]. split; [exact Hv |]. split; [exact Hh |].
  split; [apply rendered_renderTable | apply closeDetail_twice].
Qed.

(** X19.  The Escape key.  With a selection whose name is not empty it
    clears the selection, takes [visible] off the panel without putting
    [hidden] on (every other class of the panel stays as it is), and
    renders.  Any other key, or Escape without a selection or with the
    empty name selected, changes nothing. *)
Theorem keydown_escape key p :
  (key = "Escape" ->
   (exists s, selectedModel (vars p) = Some s /\ s <> "") ->
   selectedModel (vars (keydown key p)) = None /\
   ClassList.contains (detail_panel (detail (keydown key p))) "visible" = false /\
   (forall u, u <> "visible" ->
      ClassList.contains (detail_panel (detail (keydown key p))) u =
      ClassList.contains (detail_panel (detail p)) u) /\
   rendered (keydown key p)) /\
  (key <> "Escape" \/ selectedModel (vars p) = None \/
   selectedModel (vars p) = Some "" -> keydown key p = p).
Proof.
  unfold keydown. split.
  - intros -> (s & Es & Hs). rewrite Es, String.eqb_refl. cbn [selection_truthy].
    assert (Text.truthy s = true) as -> by (destruct s; [congruence | reflexivity]).
    cbn [andb].
    cbn [renderTable set_table set_detail set_selectedModel set_vars vars detail
         detail_panel selectedModel].
    split; [reflexivity |]. split; [| split].
    + rewrite contains_remove1. now rewrite andb_false_r.
    + intros u Hu. rewrite contains_remove1.
      destruct (String.eqb_spec u "visible"); [contradiction |].
      now rewrite andb_true_r.
    + apply rendered_renderTable.
  - intros [Hkey | [Hsel | Hsel]].
    + destruct (String.eqb_spec key "Escape"); [contradiction | reflexivity].
    + rewrite Hsel. simpl. now rewrite andb_false_r.
    + rewrite Hsel. simpl. now rewrite andb_false_r.
Qed.

(** X20.  The two loads of a refresh do not depend on their order: unless
    both commands fail, settling them in either order gives the same page
    (when both fail, only the order of the two console lines differs). *)
Theorem loads_commute ri rm p :
  (exists i, ri = Resolved i) \/ (exists ms, rm = Resolved ms) ->
  loadSystemInfo ri (loadModels rm p) = loadModels rm (loadSystemInfo ri p).
Proof.
  intros [[i ->] | [ms ->]].
  - destruct rm; reflexivity.
  - destruct ri; reflexivity.
Qed.

(** X21.  The VRAM line of the system panel reads "N/A" exactly when the
    record has no VRAM figure or the figure is zero or not a number. *)
Theorem vram_not_available i p :
  sys_vram (system (loadSystemInfo (Resolved i) p)) = "N/A" <->
  (vram_gb i = None \/
   exists v, vram_gb i = Some v /\ (is_zero v || is_nan v) = true).
Proof.
  cbn [loadSystemInfo set_system system sys_vram].
  destruct (vram_gb i) as [v |]; [| split; [now left | reflexivity]].
  unfold Num.truthy. destruct (is_zero v || is_nan v) eqn:E; cbn [negb].
  - split; [intros _; right; now exists v | reflexivity].
  - split.
    + intros Etext. exfalso.
      assert (Hin : In " "%char (chars "N/A")).
      { rewrite <- Etext. unfold cat. cbn [fold_right].
        rewrite !chars_app, !in_app_iff. right. left. simpl. now left. }
      simpl in Hin. intuition discriminate.
    + intros [Hnone | (v' & [= <-] & Hv)]; congruence.
Qed.

End Closing.

(** ** The second variant *)

Section SecondVariant.

Context `{Platform}.

Import Text Num.

Lemma filter_twice {A} (f g : A -> bool) l :
  List.filter g (List.filter f l) = List.filter (fun x => f x && g x) l.
Proof.
  induction l as [|x l IH]; [reflexivity |].
  cbn [List.filter]. destruct (f x); cbn [List.filter andb]; [| exact IH].
  destruct (g x); now rewrite IH.
Qed.

Lemma filter_all {A} (l : list A) : List.filter (fun _ => true) l = l.
Proof. induction l as [|x l IH]; [reflexivity |]. cbn [List.filter]. now rewrite IH. Qed.

(** X22.  [applyFilters] of the second variant: the two filters, applied
    one after the other and each only when active, show exactly the fits
    that satisfy both: the lower-cased search text, if not empty, occurs in
    the lower-cased name, and the fit level equals the fit filter unless
    that is "all". *)
Theorem applyFilters_conjunction p :
  let search := toLowerCase (Variant2.search_value p) in
  let fitFilter := Variant2.fit_filter_value p in
  Variant2.applyFilters p =
  Variant2.renderModels
    (List.filter
       (fun f =>
          (negb (Text.truthy search) || includes (toLowerCase (Variant2.name f)) search)
          && (String.eqb fitFilter "all" || String.eqb (Variant2.fit_level f) fitFilter))
       (Variant2.allFits p)) p.
Proof.
  intros search fitFilter. unfold Variant2.applyFilters. fold search fitFilter.
  f_equal.
  destruct (Text.truthy search), (String.eqb fitFilter "all"); cbn [negb orb].
  - rewrite <- (filter_all (List.filter _ _)) at 1. rewrite filter_twice.
    apply List.filter_ext. intros f. now rewrite andb_true_r.
  - apply filter_twice.
  - symmetry. apply filter_all.
  - apply List.filter_ext. intros f. reflexivity.
Qed.

(** The markup of a row starts with a line feed. *)
Lemma rowMarkup2_cons f :
  exists rest, Variant2.rowMarkup f = String (ascii_of_nat 10) rest.
Proof. unfold Variant2.rowMarkup. eexists. reflexivity. Qed.

(** X23.  The second variant shows the "No models found" row exactly when
    the list to render is empty; that is also what it shows when the
    backend is absent and the command resolves with [null]. *)
Theorem no_models_row :
  (forall fits p,
     Variant2.models_body (Variant2.renderModels fits p) = Variant2.noModelsRow <->
     fits = []) /\
  (forall p,
     Variant2.models_body (Variant2.loadModels (Resolved None) p) =
     Variant2.noModelsRow).
Proof.
  split.
  - intros fits p. destruct fits as [|f fits]; [split; reflexivity |].
    split; [| discriminate]. cbn [Variant2.renderModels Variant2.set_body
      Variant2.models_body List.map join_empty cat fold_right].
    destruct (rowMarkup2_cons f) as [rest ->]. intros E. discriminate E.
  - intros p. unfold Variant2.loadModels, Variant2.applyFilters; simpl.
    destruct (Text.truthy _), (negb _); reflexivity.
Qed.

Import Variant2Specs.

(** X24.  [loadSpecs]: a [null] result changes nothing; a failure only
    writes "Error loading specs" into the CPU line; and with a result the
    GPU line is never empty (it falls back to "No GPU detected") while the
    VRAM line is empty exactly when the VRAM figure is not above zero. *)
Theorem loadSpecs_edges :
  (forall v, loadSpecs (Resolved None) v = v) /\
  (forall e v,
     cpu_name_text (loadSpecs (Rejected e) v) = "Error loading specs" /\
     cpu_cores_text (loadSpecs (Rejected e) v) = cpu_cores_text v /\
     ram_text (loadSpecs (Rejected e) v) = ram_text v /\
     gpu_name_text (loadSpecs (Rejected e) v) = gpu_name_text v /\
     gpu_vram_text (loadSpecs (Rejected e) v) = gpu_vram_text v) /\
  (forall specs v, gpu_name_text (loadSpecs (Resolved (Some specs)) v) <> "") /\
  (forall specs v,
     gpu_vram_text (loadSpecs (Resolved (Some specs)) v) = "" <->
     (0 <? gpu_vram_gb specs)%float = false).
Proof.
  split; [reflexivity |]. split; [intros; repeat split |]. split.
  - intros specs v. cbn [loadSpecs gpu_name_text]. unfold gpuLabel.
    destruct (gpu_name specs) as [s |]; [| discriminate].
    destruct s; simpl; discriminate.
  - intros specs v. cbn [loadSpecs gpu_vram_text].
    destruct (0 <? gpu_vram_gb specs)%float; [| split; reflexivity].
    split; [| discriminate].
    destruct (toFixed (gpu_vram_gb specs) 1); intros E; discriminate E.
Qed.

End SecondVariant.

(** ** The further properties at sample inputs *)

Module Checks.

Import Text Num Spec View Escaped Sample TextMore.

#[local] Existing Instance AsciiHost.host.

(** X4 at the text "a<b": its one ampersand starts [&lt;]. *)
Lemma ampersand_of_less_than :
  escapeHtml "a<b" = "a" +:+ "&" +:+ "lt;b" /\ reference_follows "lt;b".
Proof.
  split; [reflexivity |].
  apply (escapeHtml_ampersands "a<b" "a" "lt;b"). reflexivity.
Defined.

(** X5 at a model name without special characters. *)
Lemma plain_name_unchanged :
  includes "org/model-7B" "&" = false /\ escapeHtml "org/model-7B" = "org/model-7B".
Proof.
  split; [reflexivity |].
  apply (escapeHtml_plain "org/model-7B"); reflexivity.
Defined.

(** X7 after a click on a header whose key, "size", no record has. *)
Lemma unknown_key_keeps_order :
  property (sortKey (vars (headerClick "size" loaded))) = PMissing /\
  sortModels (headerClick "size" loaded) [ax; by_] = [ax; by_].
Proof.
  assert (E : property (sortKey (vars (headerClick "size" loaded))) = PMissing)
    by reflexivity.
  split; [exact E |].
  exact (sortModels_unknown_key (H := AsciiHost.host) (headerClick "size" loaded)
           [ax; by_] E).
Defined.

(** X13: with "a/x" selected, a search that hides every row keeps the
    selection. *)
Lemma search_keeps_selection :
  selectedModel (vars (showDetail "a/x" loaded)) = Some "a/x" /\
  selectedModel (vars (handle (SearchInput "zzz") (showDetail "a/x" loaded))) =
    Some "a/x" /\
  getFilteredModels (handle (SearchInput "zzz") (showDetail "a/x" loaded)) = [].
Proof.
  destruct (selection_survives_filtering (H := AsciiHost.host) (SearchInput "zzz")
              (showDetail "a/x" loaded)) as [Hsel _].
  { left. now exists "zzz". }
  split; [reflexivity |]. split; [| reflexivity].
  rewrite Hsel. reflexivity.
Defined.

(** "a/x" is a record of the loaded page. *)
Lemma known_ax : known "a/x" loaded.
Proof. exists ax. split; [left; reflexivity | reflexivity]. Defined.

(** X15 at a click on the row of "a/x". *)
Lemma row_click_keeps_rendered :
  rendered loaded /\ rendered (handle (RowClick "a/x") loaded).
Proof.
  assert (Hr : rendered loaded) by (split; reflexivity).
  split; [exact Hr |].
  apply (rendered_kept (H := AsciiHost.host) (RowClick "a/x") loaded); [| exact Hr].
  intros n [= <-]. exact known_ax.
Defined.

(** X16 at a click on the row of "a/x". *)
Lemma row_click_keeps_valid :
  selectionValid loaded /\ selectionValid (handle (RowClick "a/x") loaded).
Proof.
  assert (Hv : selectionValid loaded) by (intros k Hk; discriminate Hk).
  split; [exact Hv |].
  apply (selectionValid_kept (H := AsciiHost.host) (RowClick "a/x") loaded);
    [discriminate | | exact Hv].
  intros n [= <-]. exact known_ax.
Defined.

(** X20 with the system info resolved and the model fits rejected. *)
Lemma failed_models_load_commutes :
  loadSystemInfo (Resolved info) (loadModels (Rejected "down") loaded) =
  loadModels (Rejected "down") (loadSystemInfo (Resolved info) loaded).
Proof.
  apply (loads_commute (H := AsciiHost.host)). left. now exists info.
Defined.

(** X17 at a click on the row of "a/x". *)
Lemma row_click_selects_ax :
  known "a/x" loaded /\
  selectedModel (vars (showDetail "a/x" loaded)) = Some "a/x" /\
  panelShown (showDetail "a/x" loaded).
Proof.
  destruct (rowClick_selects (H := AsciiHost.host) "a/x" loaded known_ax)
    as (Hs & Hp & _).
  split; [exact known_ax |]. split; [exact Hs | exact Hp].
Defined.

End Checks.
